(** * RSMI-NE coarse-graining layers ([coarsegrainer/src/cg_layers.py])

    A shallow embedding of the three classes of [cg_layers.py]:
    [Conv2DSingle], [Conv3DSingle] and [CoarseGrainer], and the properties
    of their construction logic, forward map and temperature schedule.

    Modelling conventions.
    - A tensor is a shape and a row-major buffer, as in TensorFlow.
    - Python exceptions are values of [PyError]; a fallible computation
      returns a [result].
    - The host framework (scalar arithmetic of the tensors, the random-normal
      initializer, the table of named Keras activations, the samplers of the
      relaxed distributions, the double-precision product and exponential
      of the schedule) is an interface, the class [Framework].  One framework
      fixes one outcome of every random draw, and a statement about drawn
      values is about that outcome.
    - A weight variable carries its dtype.  The batch is a floating-point
      tensor, which Keras casts to [float32] before it runs a layer, and the
      contraction refuses operands of two dtypes.
    - The scalars of the temperature schedule are the real numbers that the
      finite floats denote.  [np.float32] is the rounding to the nearest
      single-precision number, ties to even; overflow to infinity and NaN
      are outside the model.
    - [CoarseGrainer.call] is the forward map of an object on which no
      earlier call has run: the objects that the constructor and the setter
      produce. *)

From Stdlib Require Import String List Bool Arith ZArith Lia Reals Lra.
Import ListNotations.

Set Implicit Arguments.

(** ** Python exceptions and fallible computations *)

Inductive PyError : Type :=
| AttributeError (name : string)   (* 'CoarseGrainer' object has no attribute name *)
| InvalidArgumentError             (* raised by tf.einsum on a rank, dimension or dtype mismatch *)
| ValueError.                      (* raised by Keras on an unknown activation name *)

Inductive result (A : Type) : Type :=
| Ok (a : A)
| Raise (e : PyError).

Arguments Ok {A} a.
Arguments Raise {A} e.

Definition bind {A B : Type} (x : result A) (k : A -> result B) : result B :=
  match x with
  | Ok a => k a
  | Raise e => Raise e
  end.

Notation "x <- c ;; k" := (bind c (fun x => k))
  (at level 61, c at next level, right associativity).

(** ** Tensors *)

Record Tensor (F : Type) : Type := mkTensor {
  shape : list nat;
  data : list F
}.

(** Number of entries of a tensor of shape [sh]. *)
Definition numel (sh : list nat) : nat := fold_right Nat.mul 1 sh.

(** Row-major offset of the multi-index [idx] in a tensor of shape [sh]. *)
Fixpoint ravel (sh idx : list nat) (acc : nat) : nat :=
  match sh, idx with
  | d :: sh', i :: idx' => ravel sh' idx' (acc * d + i)
  | _, _ => acc
  end.

Definition well_formed {F : Type} (x : Tensor F) : bool :=
  length (data x) =? numel (shape x).

(** The dtype of a NumPy array or of a TensorFlow variable. *)
Inductive DType : Type := float32 | float64 | other_dtype.

Definition is_float32 (d : DType) : bool :=
  match d with
  | float32 => true
  | _ => false
  end.

(** ** The host framework *)

(** The two relaxed distributions of [tfd] that the embedder samples from,
    and their two parametrizations. *)
Inductive Distribution : Type := RelaxedBernoulli | RelaxedOneHotCategorical.
Inductive Parametrization : Type := probs | logits.

Class Framework (F : Type) : Type := {
  fzero : F;
  fadd : F -> F -> F;
  fmul : F -> F -> F;
  fexp : F -> F;
  fdiv : F -> F -> F;
  (** [tf.random_normal_initializer()(shape, dtype)]: the entry drawn at each
      position of the row-major buffer. *)
  random_normal : list nat -> nat -> F;
  (** [tf.keras.activations.get name]: the activation, as a map from the
      shape and the buffer of a tensor to the buffer of the result, which has
      the same shape; [None] for an unknown name, where Keras raises
      [ValueError]. *)
  activations_get : string -> option (list nat -> list F -> list F);
  (** [dist(temperature, probs=x | logits=x).sample()] *)
  relaxed_sample : Distribution -> Parametrization -> R -> Tensor F -> Tensor F;
  (** [np.exp] on a double. *)
  np_exp : R -> R;
  (** The product [x * y] of two floats. *)
  float_mul : R -> R -> R
}.

Section Tensors.
Context {F : Type} `{Framework F}.

(** [x[idx]] for a multi-index [idx]. *)
Definition item (x : Tensor F) (idx : list nat) : F :=
  nth (ravel (shape x) idx 0) (data x) fzero.

(** The sum of [f 0 .. f (n-1)]. *)
Definition sum_range (n : nat) (f : nat -> F) : F :=
  fold_right (fun i acc => fadd (f i) acc) fzero (seq 0 n).

(** The row-major buffer of a rank-3 tensor of shape [[nt; ns; nk]] whose
    entry at [[t; s; k]] is [g t s k]. *)
Definition rows3 (nt ns nk : nat) (g : nat -> nat -> nat -> F) : list F :=
  flat_map (fun t =>
    flat_map (fun s => map (fun k => g t s k) (seq 0 nk)) (seq 0 ns))
    (seq 0 nt).

(** [tf.einsum('tijk,ijs->tsk', inputs, ws)]: the labels [i] and [j] are
    summed over, [t], [s] and [k] are kept.  A rank other than 4 and 3, or two
    sizes for one label, is refused. *)
Definition einsum_tijk_ijs_tsk (inputs ws : Tensor F) : result (Tensor F) :=
  match shape inputs, shape ws with
  | [nt; ni; nj; nk], [ni'; nj'; ns] =>
      if (ni =? ni') && (nj =? nj') then
        Ok (mkTensor [nt; ns; nk]
              (rows3 nt ns nk (fun t s k =>
                 sum_range ni (fun i =>
                 sum_range nj (fun j =>
                   fmul (item inputs [t; i; j; k]) (item ws [i; j; s]))))))
      else Raise InvalidArgumentError
  | _, _ => Raise InvalidArgumentError
  end.

(** [tf.einsum('tijkl,ijks->tsl', inputs, ws)] *)
Definition einsum_tijkl_ijks_tsl (inputs ws : Tensor F) : result (Tensor F) :=
  match shape inputs, shape ws with
  | [nt; ni; nj; nk; nl], [ni'; nj'; nk'; ns] =>
      if (ni =? ni') && (nj =? nj') && (nk =? nk') then
        Ok (mkTensor [nt; ns; nl]
              (rows3 nt ns nl (fun t s l =>
                 sum_range ni (fun i =>
                 sum_range nj (fun j =>
                 sum_range nk (fun k =>
                   fmul (item inputs [t; i; j; k; l]) (item ws [i; j; k; s])))))))
      else Raise InvalidArgumentError
  | _, _ => Raise InvalidArgumentError
  end.

(** [w_init(shape=sh, dtype='float32')] for [w_init = tf.random_normal_initializer()] *)
Definition w_init (sh : list nat) : Tensor F :=
  mkTensor sh (map (random_normal sh) (seq 0 (numel sh))).

(** [tf.nn.softmax], along the last axis: the entry at buffer position [p]
    lies in the row that starts at [(p / nk) * nk], for [nk] the last dimension. *)
Definition softmax (x : Tensor F) : Tensor F :=
  let nk := last (shape x) 1 in
  mkTensor (shape x)
    (map (fun p =>
            let row := (p / nk) * nk in
            fdiv (fexp (nth p (data x) fzero))
                 (sum_range nk (fun j => fexp (nth (row + j) (data x) fzero))))
         (seq 0 (length (data x)))).

End Tensors.

(** ** [Conv2DSingle] and [Conv3DSingle] *)

(** The argument [init_rule]: [None], a NumPy array with its dtype, or any
    other object (the test of the source is
    [isinstance(init_rule, np.ndarray)]). *)
Inductive InitRule (F : Type) : Type :=
| PyNone
| NdArray (dtype : DType) (a : Tensor F)
| OtherObject.

Arguments PyNone {F}.
Arguments OtherObject {F}.

Module Conv2DSingle.

(** [ws] is the value of the variable [self.ws], [ws_dtype] its dtype. *)
Record t (F : Type) : Type := { ws : Tensor F; ws_dtype : DType }.

Section Methods.
Context {F : Type} `{Framework F}.

(** [tf.Variable(initial_value=init)] keeps the dtype of [init]: the one of
    the array, or the [float32] that the initializer is asked for. *)
Definition __init__ (hidden_dim : nat) (input_shape : list nat)
    (init_rule : InitRule F) : t F :=
  match init_rule with
  | NdArray dtype a => {| ws := a; ws_dtype := dtype |}
  | _ => {| ws := w_init (input_shape ++ [hidden_dim]); ws_dtype := float32 |}
  end.

Definition call (self : t F) (inputs : Tensor F) : result (Tensor F) :=
  einsum_tijk_ijs_tsk inputs (ws self).

End Methods.
End Conv2DSingle.

Module Conv3DSingle.

Record t (F : Type) : Type := { ws : Tensor F; ws_dtype : DType }.

Section Methods.
Context {F : Type} `{Framework F}.

Definition __init__ (hidden_dim : nat) (input_shape : list nat) : t F :=
  {| ws := w_init (input_shape ++ [hidden_dim]); ws_dtype := float32 |}.

Definition call (self : t F) (inputs : Tensor F) : result (Tensor F) :=
  einsum_tijkl_ijks_tsl inputs (ws self).

End Methods.
End Conv3DSingle.

(** ** The Keras layers of the pipeline *)

(** The object held by [self.coarse_grainer]. *)
Inductive ConvLayer (F : Type) : Type :=
| Conv2D (c : Conv2DSingle.t F)
| Conv3D (c : Conv3DSingle.t F).

(** The argument of [tfkl.Activation]: the callable [tf.nn.softmax] or the
    name of a Keras activation. *)
Inductive ActivationFn : Type :=
| tf_nn_softmax
| named (name : string).

(** [tfkl.Lambda(lambda x: dist(self.tau, param=x).sample())] *)
Record Embedder : Type := Lambda {
  distribution : Distribution;
  parametrization : Parametrization
}.

Inductive Layer (F : Type) : Type :=
| LConv (c : ConvLayer F)
| LActivation (a : ActivationFn)
| LFlatten
| LLambda (e : Embedder).

Arguments LActivation {F} a.
Arguments LFlatten {F}.
Arguments LLambda {F} e.

Section Layers.
Context {F : Type} `{Framework F}.

Definition ConvLayer_ws (c : ConvLayer F) : Tensor F :=
  match c with
  | Conv2D c => Conv2DSingle.ws c
  | Conv3D c => Conv3DSingle.ws c
  end.

Definition ConvLayer_dtype (c : ConvLayer F) : DType :=
  match c with
  | Conv2D c => Conv2DSingle.ws_dtype c
  | Conv3D c => Conv3DSingle.ws_dtype c
  end.

(** The method [call] of the layer, on a batch of the dtype of its weights. *)
Definition ConvLayer_call (c : ConvLayer F) (inputs : Tensor F) : result (Tensor F) :=
  match c with
  | Conv2D c => Conv2DSingle.call c inputs
  | Conv3D c => Conv3DSingle.call c inputs
  end.

(** The layer run by Keras, which hands it the floating-point batch as
    [float32]: weights of another dtype make the contraction raise. *)
Definition ConvLayer_run (c : ConvLayer F) (inputs : Tensor F) : result (Tensor F) :=
  if is_float32 (ConvLayer_dtype c) then ConvLayer_call c inputs
  else Raise InvalidArgumentError.

(** [tfkl.Activation(a)]: a name is looked up when the layer is built. *)
Definition Activation (a : ActivationFn) : result ActivationFn :=
  match a with
  | tf_nn_softmax => Ok a
  | named name =>
      match activations_get name with
      | Some _ => Ok a
      | None => Raise ValueError
      end
  end.

Definition Activation_call (a : ActivationFn) (x : Tensor F) : result (Tensor F) :=
  match a with
  | tf_nn_softmax => Ok (softmax x)
  | named name =>
      match activations_get name with
      | Some f => Ok (mkTensor (shape x) (f (shape x) (data x)))
      | None => Raise ValueError
      end
  end.

(** [tfkl.Flatten()]: the batch axis is kept, the others are merged. *)
Definition Flatten_call (x : Tensor F) : result (Tensor F) :=
  match shape x with
  | [] => Raise ValueError
  | batch :: rest => Ok (mkTensor [batch; numel rest] (data x))
  end.

End Layers.

(** ** [CoarseGrainer] *)

(** *** Single precision

    The exponent of the binade of a positive real, [floor(log2 x)]. *)
Definition binade (x : R) : Z := Zfloor (ln x / ln 2).

(** The nearest integer, ties to even. *)
Definition round_half_even (y : R) : Z :=
  let n := Zfloor y in
  if Rlt_dec (y - IZR n) (1 / 2) then n
  else if Rlt_dec (1 / 2) (y - IZR n) then (n + 1)%Z
  else if Z.even n then n else (n + 1)%Z.

(** The nearest multiple of the unit in the last place of a positive real:
    24 significant bits, and the exponent of the subnormals below [2^-126]. *)
Definition round_binary32 (x : R) : R :=
  let e := Z.max (binade x) (-126) in
  (IZR (round_half_even (x * powerRZ 2 (23 - e))) * powerRZ 2 (e - 23))%R.

(** [np.float32(x)] *)
Definition np_float32 (x : R) : R :=
  if Rlt_dec 0 x then round_binary32 x
  else if Rlt_dec x 0 then (- round_binary32 (- x))%R
  else 0%R.

(** [max(a, b)] returns its first argument unless the second is greater. *)
Definition py_max (a b : R) : R := if Rlt_dec a b then b else a.

Module CoarseGrainer.

(** The arguments of the constructor. *)
Module Args.
Record t (F : Type) : Type := {
  ll : list nat;
  num_hiddens : nat;
  conv_activation : string;
  Nq : option Z;
  h_embed : bool;
  init_rule : InitRule F;
  relaxation_rate : R;
  min_temperature : R;
  init_temperature : R;
  use_logits : bool;
  use_probs : bool
}.
End Args.

(** The object: an attribute that no statement has assigned yet is [None],
    and reading it raises [AttributeError].  [Nq] and [_global_step] are
    assigned by the first two statements of the constructor. *)
Record t (F : Type) : Type := {
  Nq : option Z;
  _global_step : R;
  coarse_grainer : option (ConvLayer F);
  method : option string;
  r : option R;
  min_tau : option R;
  init_tau : option R;
  embedder : option Embedder;
  _Λ : option (list (Layer F))
}.

Section Methods.
Context {F : Type} `{Framework F}.

Definition getattr {A : Type} (name : string) (attr : option A) : result A :=
  match attr with
  | Some v => Ok v
  | None => Raise (AttributeError name)
  end.

Definition set_global_step (self : t F) (v : R) : t F :=
  {| Nq := Nq self; _global_step := v;
     coarse_grainer := coarse_grainer self; method := method self;
     r := r self; min_tau := min_tau self; init_tau := init_tau self;
     embedder := embedder self; _Λ := _Λ self |}.

Definition set_coarse_grainer (self : t F) (v : ConvLayer F) : t F :=
  {| Nq := Nq self; _global_step := _global_step self;
     coarse_grainer := Some v; method := method self;
     r := r self; min_tau := min_tau self; init_tau := init_tau self;
     embedder := embedder self; _Λ := _Λ self |}.

Definition set_method (self : t F) (v : string) : t F :=
  {| Nq := Nq self; _global_step := _global_step self;
     coarse_grainer := coarse_grainer self; method := Some v;
     r := r self; min_tau := min_tau self; init_tau := init_tau self;
     embedder := embedder self; _Λ := _Λ self |}.

Definition set_schedule (self : t F) (rate min_t init_t : R) : t F :=
  {| Nq := Nq self; _global_step := _global_step self;
     coarse_grainer := coarse_grainer self; method := method self;
     r := Some rate; min_tau := Some min_t; init_tau := Some init_t;
     embedder := embedder self; _Λ := _Λ self |}.

Definition set_embedder (self : t F) (v : Embedder) : t F :=
  {| Nq := Nq self; _global_step := _global_step self;
     coarse_grainer := coarse_grainer self; method := method self;
     r := r self; min_tau := min_tau self; init_tau := init_tau self;
     embedder := Some v; _Λ := _Λ self |}.

Definition set_Λ (self : t F) (v : list (Layer F)) : t F :=
  {| Nq := Nq self; _global_step := _global_step self;
     coarse_grainer := coarse_grainer self; method := method self;
     r := r self; min_tau := min_tau self; init_tau := init_tau self;
     embedder := embedder self; _Λ := Some v |}.

(** The constructor.  In each [tf.keras.Sequential([...])] the list is
    evaluated from the left, so [self.coarse_grainer] is read first. *)
Definition __init__ (a : Args.t F) : result (t F) :=
  let self :=
    {| Nq := Args.Nq a; _global_step := 0%R;
       coarse_grainer := None; method := None;
       r := None; min_tau := None; init_tau := None;
       embedder := None; _Λ := None |} in
  let self :=
    if length (Args.ll a) =? 2 then
      set_coarse_grainer self
        (Conv2D (Conv2DSingle.__init__ (Args.num_hiddens a) (Args.ll a) (Args.init_rule a)))
    else if length (Args.ll a) =? 3 then
      set_coarse_grainer self
        (Conv3D (Conv3DSingle.__init__ (Args.num_hiddens a) (Args.ll a)))
    else self in
  if Args.h_embed a then
    let self := set_method self "pseudo-categorical sampling" in
    let self := set_schedule self (Args.relaxation_rate a)
                  (Args.min_temperature a) (Args.init_temperature a) in
    match Nq self with
    | None =>
        if Args.use_probs a then
          let self := set_embedder self (Lambda RelaxedBernoulli probs) in
          cg <- getattr "coarse_grainer" (coarse_grainer self) ;;
          act <- Activation tf_nn_softmax ;;
          emb <- getattr "embedder" (embedder self) ;;
          Ok (set_Λ self [LConv cg; LActivation act; LFlatten; LLambda emb])
        else if Args.use_logits a then
          let self := set_embedder self (Lambda RelaxedBernoulli logits) in
          cg <- getattr "coarse_grainer" (coarse_grainer self) ;;
          emb <- getattr "embedder" (embedder self) ;;
          Ok (set_Λ self [LConv cg; LFlatten; LLambda emb])
        else Ok self
    | Some _ =>
        if Args.use_probs a then
          let self := set_embedder self (Lambda RelaxedOneHotCategorical probs) in
          cg <- getattr "coarse_grainer" (coarse_grainer self) ;;
          act <- Activation tf_nn_softmax ;;
          emb <- getattr "embedder" (embedder self) ;;
          Ok (set_Λ self [LConv cg; LActivation act; LFlatten; LLambda emb])
        else if Args.use_logits a then
          let self := set_embedder self (Lambda RelaxedOneHotCategorical logits) in
          cg <- getattr "coarse_grainer" (coarse_grainer self) ;;
          emb <- getattr "embedder" (embedder self) ;;
          Ok (set_Λ self [LConv cg; LFlatten; LLambda emb])
        else Ok self
    end
  else
    let self := set_method self "convolved variables" in
    cg <- getattr "coarse_grainer" (coarse_grainer self) ;;
    act <- Activation (named (Args.conv_activation a)) ;;
    Ok (set_Λ self [LConv cg; LActivation act; LFlatten]).

(** The property [global_step] and its setter. *)
Definition global_step (self : t F) : R := _global_step self.

Definition global_step_setter (self : t F) (step : R) : t F :=
  set_global_step self (np_float32 step).

(** The property [tau]. *)
Definition tau (self : t F) : result R :=
  min_t <- getattr "min_tau" (min_tau self) ;;
  init_t <- getattr "init_tau" (init_tau self) ;;
  rate <- getattr "r" (r self) ;;
  Ok (np_float32
        (py_max min_t
           (float_mul init_t (np_exp (float_mul (- rate) (_global_step self)))))).

(** One layer of the pipeline; the embedder reads [self.tau] when it is run. *)
Definition Layer_call (self : t F) (l : Layer F) (x : Tensor F) : result (Tensor F) :=
  match l with
  | LConv c => ConvLayer_run c x
  | LActivation a => Activation_call a x
  | LFlatten => Flatten_call x
  | LLambda e =>
      temperature <- tau self ;;
      Ok (relaxed_sample (distribution e) (parametrization e) temperature x)
  end.

(** [tf.keras.Sequential(layers)(x)] *)
Fixpoint Sequential_call (self : t F) (layers : list (Layer F)) (x : Tensor F)
    : result (Tensor F) :=
  match layers with
  | [] => Ok x
  | l :: layers' =>
      y <- Layer_call self l x ;;
      Sequential_call self layers' y
  end.

(** [call(V)], on an object on which no earlier call has run.  (Keras
    builds the [Sequential] at its first successful call and from then on
    adds or drops a trailing axis of size one to match the rank it was
    built for.) *)
Definition call (self : t F) (V : Tensor F) : result (Tensor F) :=
  Λ <- getattr "_Λ" (_Λ self) ;;
  Sequential_call self Λ V.

End Methods.
End CoarseGrainer.

(** ** Notions used by the statements *)

Section Notions.
Context {F : Type} `{Framework F}.

(** The sum of [f idx] over every multi-index [idx] below [dims]: the
    contraction of all spatial axes, as the specification words it. *)
Fixpoint sum_over (dims : list nat) (f : list nat -> F) : F :=
  match dims with
  | [] => f []
  | d :: dims' => sum_range d (fun i => sum_over dims' (fun idx => f (i :: idx)))
  end.

(** Number of spatial axes that a linear stage contracts. *)
Definition spatial_rank (c : ConvLayer F) : nat :=
  match c with
  | Conv2D _ => 2
  | Conv3D _ => 3
  end.

Definition is_softmax (l : Layer F) : bool :=
  match l with
  | LActivation tf_nn_softmax => true
  | _ => false
  end.

(** The assembled pipeline holds the normalizing softmax activation. *)
Definition normalizes (self : CoarseGrainer.t F) : bool :=
  match CoarseGrainer._Λ self with
  | Some layers => existsb is_softmax layers
  | None => false
  end.

(** An explicit initial weight array, when there is one, is a [float32]
    array of shape [ll + (num_hiddens,)]. *)
Definition init_rule_fits (a : CoarseGrainer.Args.t F) : Prop :=
  match CoarseGrainer.Args.init_rule a with
  | NdArray dtype w =>
      dtype = float32 /\
      shape w = CoarseGrainer.Args.ll a ++ [CoarseGrainer.Args.num_hiddens a]
  | _ => True
  end.

(** The floating-point exponential and product do not reverse an order. *)
Definition exp_monotone : Prop :=
  forall x y : R, (x <= y)%R -> (np_exp x <= np_exp y)%R.

Definition mul_monotone : Prop :=
  (forall a x y : R, (0 <= a)%R -> (x <= y)%R -> (float_mul a x <= float_mul a y)%R) /\
  (forall a x y : R, (a <= 0)%R -> (x <= y)%R -> (float_mul a y <= float_mul a x)%R).

(** The setter called once for each step of [steps], in order. *)
Definition run_steps (self : CoarseGrainer.t F) (steps : list R) : CoarseGrainer.t F :=
  fold_left CoarseGrainer.global_step_setter steps self.

End Notions.

(** ** A framework over the integers, for running the model on examples

    Shapes, the assembled pipeline and the exceptions raised do not depend on
    the scalars, so the examples run on integers: the initializer draws
    [1, 2, 3, ...], [sgn] stands for [tanh], and the samplers return their
    argument.  The product and the exponential of the schedule are the exact
    ones. *)

Definition Z_framework : Framework Z := {|
  fzero := 0%Z;
  fadd := Z.add;
  fmul := Z.mul;
  fexp := Z.pow 2;
  fdiv := Z.div;
  random_normal := fun _ p => (Z.of_nat p + 1)%Z;
  activations_get := fun name =>
    if String.eqb name "tanh" then Some (fun _ => map Z.sgn)
    else if String.eqb name "linear" then Some (fun _ d => d)
    else None;
  relaxed_sample := fun _ _ _ x => x;
  np_exp := exp;
  float_mul := Rmult
|}.

#[local] Existing Instance Z_framework.

(** The constructor's defaults: [CoarseGrainer(ll, num_hiddens)]. *)
Definition default_args {F : Type} (ll : list nat) (num_hiddens : nat)
    : CoarseGrainer.Args.t F :=
  {| CoarseGrainer.Args.ll := ll;
     CoarseGrainer.Args.num_hiddens := num_hiddens;
     CoarseGrainer.Args.conv_activation := "tanh";
     CoarseGrainer.Args.Nq := None;
     CoarseGrainer.Args.h_embed := false;
     CoarseGrainer.Args.init_rule := PyNone;
     CoarseGrainer.Args.relaxation_rate := (1 / 100)%R;
     CoarseGrainer.Args.min_temperature := (5 / 100)%R;
     CoarseGrainer.Args.init_temperature := 2%R;
     CoarseGrainer.Args.use_logits := true;
     CoarseGrainer.Args.use_probs := false |}.

(** [CoarseGrainer(ll, num_hiddens, h_embed=True, use_probs=.., use_logits=..,
    relaxation_rate=.., min_temperature=.., init_temperature=..)] *)
Definition embedding_args {F : Type} (ll : list nat) (num_hiddens : nat)
    (use_probs use_logits : bool) (rate min_t init_t : R)
    : CoarseGrainer.Args.t F :=
  {| CoarseGrainer.Args.ll := ll;
     CoarseGrainer.Args.num_hiddens := num_hiddens;
     CoarseGrainer.Args.conv_activation := "tanh";
     CoarseGrainer.Args.Nq := None;
     CoarseGrainer.Args.h_embed := true;
     CoarseGrainer.Args.init_rule := PyNone;
     CoarseGrainer.Args.relaxation_rate := rate;
     CoarseGrainer.Args.min_temperature := min_t;
     CoarseGrainer.Args.init_temperature := init_t;
     CoarseGrainer.Args.use_logits := use_logits;
     CoarseGrainer.Args.use_probs := use_probs |}.

(** The same call with [init_rule=rule]. *)
Definition with_init_rule {F : Type} (a : CoarseGrainer.Args.t F)
    (rule : InitRule F) : CoarseGrainer.Args.t F :=
  {| CoarseGrainer.Args.ll := CoarseGrainer.Args.ll a;
     CoarseGrainer.Args.num_hiddens := CoarseGrainer.Args.num_hiddens a;
     CoarseGrainer.Args.conv_activation := CoarseGrainer.Args.conv_activation a;
     CoarseGrainer.Args.Nq := CoarseGrainer.Args.Nq a;
     CoarseGrainer.Args.h_embed := CoarseGrainer.Args.h_embed a;
     CoarseGrainer.Args.init_rule := rule;
     CoarseGrainer.Args.relaxation_rate := CoarseGrainer.Args.relaxation_rate a;
     CoarseGrainer.Args.min_temperature := CoarseGrainer.Args.min_temperature a;
     CoarseGrainer.Args.init_temperature := CoarseGrainer.Args.init_temperature a;
     CoarseGrainer.Args.use_logits := CoarseGrainer.Args.use_logits a;
     CoarseGrainer.Args.use_probs := CoarseGrainer.Args.use_probs a |}.

(** A tensor of shape [sh] whose entries are all [v]. *)
Definition full {F : Type} (sh : list nat) (v : F) : Tensor F :=
  mkTensor sh (repeat v (numel sh)).

(** ** A framework over the reals

    The scalars of the tensors as real numbers, with the real exponential
    and hyperbolic tangent; the initializer and the samplers are stand-ins. *)

Definition R_framework : Framework R := {|
  fzero := 0%R;
  fadd := Rplus;
  fmul := Rmult;
  fexp := exp;
  fdiv := Rdiv;
  random_normal := fun _ p => INR p;
  activations_get := fun name =>
    if String.eqb name "tanh" then Some (fun _ => map tanh)
    else if String.eqb name "linear" then Some (fun _ d => d)
    else None;
  relaxed_sample := fun _ _ _ x => x;
  np_exp := exp;
  float_mul := Rmult
|}.

(** The same call with [Nq=v]. *)
Definition with_Nq {F : Type} (a : CoarseGrainer.Args.t F) (v : option Z)
    : CoarseGrainer.Args.t F :=
  {| CoarseGrainer.Args.ll := CoarseGrainer.Args.ll a;
     CoarseGrainer.Args.num_hiddens := CoarseGrainer.Args.num_hiddens a;
     CoarseGrainer.Args.conv_activation := CoarseGrainer.Args.conv_activation a;
     CoarseGrainer.Args.Nq := v;
     CoarseGrainer.Args.h_embed := CoarseGrainer.Args.h_embed a;
     CoarseGrainer.Args.init_rule := CoarseGrainer.Args.init_rule a;
     CoarseGrainer.Args.relaxation_rate := CoarseGrainer.Args.relaxation_rate a;
     CoarseGrainer.Args.min_temperature := CoarseGrainer.Args.min_temperature a;
     CoarseGrainer.Args.init_temperature := CoarseGrainer.Args.init_temperature a;
     CoarseGrainer.Args.use_logits := CoarseGrainer.Args.use_logits a;
     CoarseGrainer.Args.use_probs := CoarseGrainer.Args.use_probs a |}.

(** The same call with [conv_activation=name]. *)
Definition with_conv_activation {F : Type} (a : CoarseGrainer.Args.t F)
    (name : string) : CoarseGrainer.Args.t F :=
  {| CoarseGrainer.Args.ll := CoarseGrainer.Args.ll a;
     CoarseGrainer.Args.num_hiddens := CoarseGrainer.Args.num_hiddens a;
     CoarseGrainer.Args.conv_activation := name;
     CoarseGrainer.Args.Nq := CoarseGrainer.Args.Nq a;
     CoarseGrainer.Args.h_embed := CoarseGrainer.Args.h_embed a;
     CoarseGrainer.Args.init_rule := CoarseGrainer.Args.init_rule a;
     CoarseGrainer.Args.relaxation_rate := CoarseGrainer.Args.relaxation_rate a;
     CoarseGrainer.Args.min_temperature := CoarseGrainer.Args.min_temperature a;
     CoarseGrainer.Args.init_temperature := CoarseGrainer.Args.init_temperature a;
     CoarseGrainer.Args.use_logits := CoarseGrainer.Args.use_logits a;
     CoarseGrainer.Args.use_probs := CoarseGrainer.Args.use_probs a |}.

(** The distribution and the parametrization that the constructor's tests
    select in embedding mode. *)
Definition selected_distribution {F : Type} (a : CoarseGrainer.Args.t F)
    : Distribution :=
  match CoarseGrainer.Args.Nq a with
  | None => RelaxedBernoulli
  | Some _ => RelaxedOneHotCategorical
  end.

Definition selected_parametrization {F : Type} (a : CoarseGrainer.Args.t F)
    : Parametrization :=
  if CoarseGrainer.Args.use_probs a then probs else logits.

(** The block shape has two or three axes. *)
Definition supported_shape {F : Type} (a : CoarseGrainer.Args.t F) : bool :=
  (length (CoarseGrainer.Args.ll a) =? 2) || (length (CoarseGrainer.Args.ll a) =? 3).

(** The doubles written [0.7], [0.5] and [0.01]. *)
Definition double_0_7 : R := (3152519739159347 / 4503599627370496)%R.
Definition double_0_5 : R := (1 / 2)%R.
Definition double_0_01 : R := (5764607523034235 / 576460752303423488)%R.

(** * Properties *)

Unset Implicit Arguments.

(** ** Facts on lists and buffers *)

Section ListFacts.
Context {A B : Type}.

Lemma flat_map_uniform_length (f : A -> list B) (m : nat) (l : list A) :
  (forall x, length (f x) = m) -> length (flat_map f l) = length l * m.
Proof.
  intros Hf. induction l as [|a l IH]; simpl.
  - reflexivity.
  - rewrite length_app, Hf, IH. reflexivity.
Qed.

Lemma nth_flat_map_uniform (f : A -> list B) (m : nat) (l : list A) (a0 : A) (d : B) :
  (forall x, length (f x) = m) ->
  forall i j, i < length l -> j < m ->
  nth (i * m + j) (flat_map f l) d = nth j (f (nth i l a0)) d.
Proof.
  intros Hf. induction l as [|a l IH]; intros i j Hi Hj; simpl in Hi.
  - lia.
  - destruct i as [|i]; simpl.
    + apply app_nth1. rewrite Hf. exact Hj.
    + rewrite app_nth2 by (rewrite Hf; lia).
      rewrite Hf. replace (m + i * m + j - m) with (i * m + j) by lia.
      apply IH; lia.
Qed.

Lemma nth_map_seq (f : nat -> B) (n k : nat) (d : B) :
  k < n -> nth k (map f (seq 0 n)) d = f k.
Proof.
  intros Hk.
  rewrite (nth_indep _ d (f 0)) by (rewrite length_map, length_seq; exact Hk).
  rewrite map_nth, seq_nth by exact Hk. reflexivity.
Qed.

End ListFacts.

Section TensorFacts.
Context {F : Type} `{Framework F}.

Lemma rows3_length nt ns nk (g : nat -> nat -> nat -> F) :
  length (rows3 nt ns nk g) = nt * (ns * nk).
Proof.
  unfold rows3.
  rewrite (flat_map_uniform_length _ (ns * nk)), length_seq; [reflexivity|].
  intros t. rewrite (flat_map_uniform_length _ nk), length_seq; [reflexivity|].
  intros s. rewrite length_map, length_seq. reflexivity.
Qed.

Lemma rows3_nth nt ns nk (g : nat -> nat -> nat -> F) t s k d :
  t < nt -> s < ns -> k < nk ->
  nth ((t * ns + s) * nk + k) (rows3 nt ns nk g) d = g t s k.
Proof.
  intros Ht Hs Hk. unfold rows3.
  replace ((t * ns + s) * nk + k) with (t * (ns * nk) + (s * nk + k)) by lia.
  rewrite (nth_flat_map_uniform _ (ns * nk) _ 0).
  - rewrite seq_nth by exact Ht. simpl.
    rewrite (nth_flat_map_uniform _ nk _ 0).
    + rewrite seq_nth by exact Hs. simpl. apply nth_map_seq. exact Hk.
    + intros x. rewrite length_map, length_seq. reflexivity.
    + rewrite length_seq. exact Hs.
    + exact Hk.
  - intros x. rewrite (flat_map_uniform_length _ nk), length_seq; [reflexivity|].
    intros y. rewrite length_map, length_seq. reflexivity.
  - rewrite length_seq. exact Ht.
  - nia.
Qed.

(** The entries of a rank-3 tensor built by [rows3]. *)
Lemma item_rows3 nt ns nk (g : nat -> nat -> nat -> F) t s k :
  t < nt -> s < ns -> k < nk ->
  item (mkTensor [nt; ns; nk] (rows3 nt ns nk g)) [t; s; k] = g t s k.
Proof.
  intros Ht Hs Hk. unfold item. simpl.
  apply rows3_nth; assumption.
Qed.

Lemma rows3_well_formed nt ns nk (g : nat -> nat -> nat -> F) :
  well_formed (mkTensor [nt; ns; nk] (rows3 nt ns nk g)) = true.
Proof.
  unfold well_formed. simpl. rewrite rows3_length.
  apply Nat.eqb_eq. lia.
Qed.

(** What the two einsum patterns return on operands of matching shapes. *)
Lemma einsum_tijk_ijs_tsk_spec (inputs ws : Tensor F) nt ni nj nk ns :
  shape inputs = [nt; ni; nj; nk] -> shape ws = [ni; nj; ns] ->
  einsum_tijk_ijs_tsk inputs ws =
  Ok (mkTensor [nt; ns; nk]
        (rows3 nt ns nk (fun t s k =>
           sum_over [ni; nj] (fun idx =>
             fmul (item inputs (t :: idx ++ [k])) (item ws (idx ++ [s])))))).
Proof.
  intros Hx Hw. unfold einsum_tijk_ijs_tsk. rewrite Hx, Hw.
  rewrite !Nat.eqb_refl. reflexivity.
Qed.

Lemma einsum_tijkl_ijks_tsl_spec (inputs ws : Tensor F) nt ni nj nk nl ns :
  shape inputs = [nt; ni; nj; nk; nl] -> shape ws = [ni; nj; nk; ns] ->
  einsum_tijkl_ijks_tsl inputs ws =
  Ok (mkTensor [nt; ns; nl]
        (rows3 nt ns nl (fun t s l =>
           sum_over [ni; nj; nk] (fun idx =>
             fmul (item inputs (t :: idx ++ [l])) (item ws (idx ++ [s])))))).
Proof.
  intros Hx Hw. unfold einsum_tijkl_ijks_tsl. rewrite Hx, Hw.
  rewrite !Nat.eqb_refl. reflexivity.
Qed.

(** The linear stage on a batch with a trailing axis of size [nk]. *)
Lemma ConvLayer_call_spec (c : ConvLayer F) (inputs : Tensor F)
    (spatial : list nat) (nt nk ns : nat) :
  length spatial = spatial_rank c ->
  shape inputs = nt :: spatial ++ [nk] ->
  shape (ConvLayer_ws c) = spatial ++ [ns] ->
  ConvLayer_call c inputs =
  Ok (mkTensor [nt; ns; nk]
        (rows3 nt ns nk (fun t s k =>
           sum_over spatial (fun idx =>
             fmul (item inputs (t :: idx ++ [k]))
                  (item (ConvLayer_ws c) (idx ++ [s])))))).
Proof.
  intros Hrank Hx Hw. destruct c as [c|c]; simpl in Hrank, Hw |- *.
  - destruct spatial as [|ni [|nj [|? ?]]]; try discriminate.
    apply einsum_tijk_ijs_tsk_spec; assumption.
  - destruct spatial as [|ni [|nj [|nk' [|? ?]]]]; try discriminate.
    apply einsum_tijkl_ijks_tsl_spec; assumption.
Qed.

End TensorFacts.

(** ** The linear stage *)

(** C1, as the code has it: on a batch of shape [(nt,) + S + (nk,)], with a
    trailing axis after the spatial axes [S], and weights of shape
    [S + (ns,)], the linear stage ([Conv2DSingle.call] for two spatial axes,
    [Conv3DSingle.call] for three) returns a well-formed tensor of shape
    [(nt, ns, nk)]: for each sample and each position [k] of the trailing
    axis, one value per hidden channel [s], the sum over every spatial index
    of the product of the block entry and the weight entry at that index,
    with no bias term.  A batch of shape [(nt,) + S], without the trailing
    axis, is refused. *)
Theorem linear_stage_contracts_spatial_axes :
  forall (F : Type) (fw : Framework F) (c : ConvLayer F) (inputs : Tensor F)
         (spatial : list nat) (nt nk ns : nat),
    length spatial = spatial_rank c ->
    shape (ConvLayer_ws c) = spatial ++ [ns] ->
    (shape inputs = nt :: spatial ++ [nk] ->
     exists out,
       ConvLayer_call c inputs = Ok out /\
       shape out = [nt; ns; nk] /\
       well_formed out = true /\
       forall t s k, t < nt -> s < ns -> k < nk ->
         item out [t; s; k] =
         sum_over spatial (fun idx =>
           fmul (item inputs (t :: idx ++ [k]))
                (item (ConvLayer_ws c) (idx ++ [s])))) /\
    (shape inputs = nt :: spatial ->
     ConvLayer_call c inputs = Raise InvalidArgumentError).
Proof.
  intros F fw c inputs spatial nt nk ns Hrank Hw. split.
  - intros Hx. eexists.
    split; [apply (ConvLayer_call_spec c inputs spatial nt nk ns Hrank Hx Hw)|].
    split; [reflexivity|]. split; [apply rows3_well_formed|].
    intros t s k Ht Hs Hk. exact (item_rows3 nt ns nk _ t s k Ht Hs Hk).
  - intros Hx. destruct c as [c|c]; cbn in Hrank |- *.
    + destruct spatial as [|ni [|nj [|? ?]]]; try discriminate.
      unfold Conv2DSingle.call, einsum_tijk_ijs_tsk. rewrite Hx. reflexivity.
    + destruct spatial as [|ni [|nj [|nk' [|? ?]]]]; try discriminate.
      unfold Conv3DSingle.call, einsum_tijkl_ijks_tsl. rewrite Hx. reflexivity.
Qed.

Lemma linear_stage_contracts_spatial_axes_witness :
  let layer := Conv2D (Conv2DSingle.__init__ 3 [2; 2] PyNone) in
  let inputs := full [5; 2; 2; 1] 0%Z in
  (shape inputs = [5; 2; 2; 1] ->
   exists out,
     ConvLayer_call layer inputs = Ok out /\
     shape out = [5; 3; 1] /\
     well_formed out = true /\
     forall t s k, t < 5 -> s < 3 -> k < 1 ->
       item out [t; s; k] =
       sum_over [2; 2] (fun idx =>
         Z.mul (item inputs (t :: idx ++ [k]))
               (item (ConvLayer_ws layer) (idx ++ [s])))) /\
  (shape inputs = [5; 2; 2] ->
   ConvLayer_call layer inputs = Raise InvalidArgumentError).
Proof.
  apply (linear_stage_contracts_spatial_axes Z Z_framework
           (Conv2D (Conv2DSingle.__init__ 3 [2; 2] PyNone))
           (full [5; 2; 2; 1] 0%Z) [2; 2] 5 1 3); reflexivity.
Defined.

(** The batch of five zero blocks of shape [(2, 2)], with three hidden units:
    five zero vectors, since the stage is linear and has no bias. *)
Example zero_batch_gives_zero_output :
  Conv2DSingle.call (Conv2DSingle.__init__ 3 [2; 2] PyNone) (full [5; 2; 2; 1] 0%Z)
  = Ok (full [5; 3; 1] 0%Z).
Proof. reflexivity. Qed.

(** C1, as the specification has it, fails: the batch of five zero blocks of
    shape [(2, 2)] with a trailing axis of size one gives, for each sample, an
    output of shape [(3, 1)] and not [(3,)]; and the same batch without the
    trailing axis, of shape [(5, 2, 2)], is refused by the contraction. *)
Lemma linear_stage_sample_shape_not_num_hiddens :
  let layer := Conv2DSingle.__init__ 3 [2; 2] PyNone in
  shape (Conv2DSingle.ws layer) = [2; 2] ++ [3] /\
  (exists out,
     Conv2DSingle.call layer (full [5; 2; 2; 1] 0%Z) = Ok out /\
     tl (shape out) = [3; 1] /\ tl (shape out) <> [3]) /\
  Conv2DSingle.call layer (full [5; 2; 2] 0%Z)
    = Raise InvalidArgumentError.
Proof.
  split; [reflexivity|]. split; [|reflexivity].
  eexists. split; [reflexivity|]. split; [reflexivity|discriminate].
Qed.

(** ** The constructor *)

(** Case analysis on the tests of [__init__], in the order of the source. *)
Ltac init_cases :=
  unfold CoarseGrainer.__init__, Activation;
  repeat (cbn;
    match goal with
    | |- context [if ?b then _ else _] => destruct b eqn:?
    | |- context [match CoarseGrainer.Args.Nq ?a with _ => _ end] =>
        destruct (CoarseGrainer.Args.Nq a) eqn:?
    | |- context [match activations_get ?n with _ => _ end] =>
        destruct (activations_get n) eqn:?
    end);
  cbn.

Section ConstructorFacts.
Context {F : Type} `{Framework F}.

Import CoarseGrainer.

(** In embedding mode the constructor stores the three scalars of the
    schedule and leaves the step at its initial value. *)
Lemma init_embed_schedule (a : Args.t F) (self : t F) :
  Args.h_embed a = true -> __init__ a = Ok self ->
  min_tau self = Some (Args.min_temperature a) /\
  init_tau self = Some (Args.init_temperature a) /\
  r self = Some (Args.relaxation_rate a) /\
  _global_step self = 0%R.
Proof.
  intros He. revert He. init_cases; intros He Hinit;
    try discriminate; injection Hinit as <-; cbn; auto.
Qed.

(** Without embedding the schedule is not stored. *)
Lemma init_direct_no_schedule (a : Args.t F) (self : t F) :
  Args.h_embed a = false -> __init__ a = Ok self -> min_tau self = None.
Proof.
  intros He. revert He. init_cases; intros He Hinit;
    try discriminate; injection Hinit as <-; reflexivity.
Qed.

(** The linear stage that the constructor assigns. *)
Lemma init_coarse_grainer (a : Args.t F) (self : t F) :
  __init__ a = Ok self ->
  coarse_grainer self =
    if length (Args.ll a) =? 2 then
      Some (Conv2D (Conv2DSingle.__init__ (Args.num_hiddens a) (Args.ll a) (Args.init_rule a)))
    else if length (Args.ll a) =? 3 then
      Some (Conv3D (Conv3DSingle.__init__ (Args.num_hiddens a) (Args.ll a)))
    else None.
Proof.
  init_cases; intros Hinit; try discriminate; injection Hinit as <-; reflexivity.
Qed.

(** The pipeline of the mode without embedding. *)
Lemma init_direct_pipeline (a : Args.t F) (self : t F) :
  Args.h_embed a = false -> __init__ a = Ok self ->
  exists cg f,
    coarse_grainer self = Some cg /\
    activations_get (Args.conv_activation a) = Some f /\
    _Λ self = Some [LConv cg; LActivation (named (Args.conv_activation a)); LFlatten].
Proof.
  intros He. revert He. init_cases; intros He Hinit;
    try discriminate; injection Hinit as <-; cbn; eauto.
Qed.

(** The setter changes the step and nothing else. *)
Lemma run_steps_attributes (steps : list R) (self : t F) :
  min_tau (run_steps self steps) = min_tau self /\
  init_tau (run_steps self steps) = init_tau self /\
  r (run_steps self steps) = r self /\
  _Λ (run_steps self steps) = _Λ self /\
  coarse_grainer (run_steps self steps) = coarse_grainer self.
Proof.
  revert self. induction steps as [|s steps IH]; intros self.
  - cbn. auto.
  - cbn [run_steps fold_left]. exact (IH (global_step_setter self s)).
Qed.

End ConstructorFacts.

(** ** The temperature schedule *)

Lemma py_max_Rmax (a b : R) : py_max a b = Rmax a b.
Proof.
  unfold py_max, Rmax.
  destruct (Rlt_dec a b), (Rle_dec a b); try reflexivity; lra.
Qed.

Lemma exp_nondecreasing (x y : R) : (x <= y)%R -> (exp x <= exp y)%R.
Proof.
  intros [Hlt | ->].
  - left. apply exp_increasing. exact Hlt.
  - right. reflexivity.
Qed.

(** ** Single precision *)

Section Binary32Facts.
Open Scope R_scope.

Lemma ln_2_pos : 0 < ln 2.
Proof. rewrite <- ln_1. apply ln_increasing; lra. Qed.

Lemma powerRZ_2_pos (e : Z) : 0 < powerRZ 2 e.
Proof. apply powerRZ_lt. lra. Qed.

Lemma powerRZ_2_exp (e : Z) : powerRZ 2 e = exp (IZR e * ln 2).
Proof. rewrite powerRZ_Rpower by lra. reflexivity. Qed.

Lemma powerRZ_2_add (a b : Z) : powerRZ 2 (a + b) = powerRZ 2 a * powerRZ 2 b.
Proof. apply powerRZ_add. lra. Qed.

Lemma powerRZ_2_le (a b : Z) : (a <= b)%Z -> powerRZ 2 a <= powerRZ 2 b.
Proof.
  intros Hab. rewrite !powerRZ_2_exp.
  destruct (Z.eq_dec a b) as [-> | Hne]; [lra|].
  left. apply exp_increasing. apply Rmult_lt_compat_r; [apply ln_2_pos|].
  apply IZR_lt. lia.
Qed.

Lemma ln_nondecreasing (x y : R) : 0 < x -> x <= y -> ln x <= ln y.
Proof.
  intros Hx [Hlt | ->]; [|lra]. left. apply ln_increasing; assumption.
Qed.

(** A positive real lies in the binade that [binade] names. *)
Lemma binade_bounds (x : R) :
  0 < x -> powerRZ 2 (binade x) <= x < powerRZ 2 (binade x + 1).
Proof.
  intros Hx. unfold binade.
  pose proof (Zfloor_bound (ln x / ln 2)) as [Hlo Hhi].
  pose proof ln_2_pos as H2.
  assert (Hq : ln x / ln 2 * ln 2 = ln x) by (field; lra).
  rewrite !powerRZ_2_exp, plus_IZR. rewrite <- (exp_ln x Hx) at 2 3.
  split.
  - assert (IZR (Zfloor (ln x / ln 2)) * ln 2 <= ln x) by nra.
    destruct H as [H | H]; [left; apply exp_increasing; exact H | rewrite H; lra].
  - apply exp_increasing. nra.
Qed.

Lemma binade_unique (x : R) (e : Z) :
  0 < x -> powerRZ 2 e <= x < powerRZ 2 (e + 1) -> binade x = e.
Proof.
  intros Hx [Hlo Hhi]. unfold binade. apply Zfloor_eq.
  pose proof ln_2_pos as H2.
  assert (Hle : IZR e * ln 2 <= ln x).
  { rewrite <- (ln_exp (IZR e * ln 2)), <- powerRZ_2_exp.
    apply ln_nondecreasing; [apply powerRZ_2_pos | exact Hlo]. }
  assert (Hlt : ln x < (IZR e + 1) * ln 2).
  { rewrite <- (ln_exp ((IZR e + 1) * ln 2)), <- plus_IZR, <- powerRZ_2_exp.
    apply ln_increasing; assumption. }
  split.
  - apply Rmult_le_reg_r with (ln 2); [exact H2|].
    replace (ln x / ln 2 * ln 2) with (ln x) by (field; lra). exact Hle.
  - apply Rmult_lt_reg_r with (ln 2); [exact H2|].
    replace (ln x / ln 2 * ln 2) with (ln x) by (field; lra). exact Hlt.
Qed.

Lemma binade_le (x y : R) : 0 < x -> x <= y -> (binade x <= binade y)%Z.
Proof.
  intros Hx Hxy. unfold binade. apply Zfloor_le.
  pose proof ln_2_pos as H2. pose proof (ln_nondecreasing x y Hx Hxy) as Hln.
  unfold Rdiv. apply Rmult_le_compat_r; [|exact Hln].
  left. apply Rinv_0_lt_compat. exact H2.
Qed.

(** Rounding to the nearest integer, ties to even. *)
Lemma round_half_even_range (y : R) :
  (Zfloor y <= round_half_even y <= Zfloor y + 1)%Z.
Proof.
  unfold round_half_even.
  destruct (Rlt_dec _ _); [lia|]. destruct (Rlt_dec _ _); [lia|].
  destruct (Z.even _); lia.
Qed.

Lemma round_half_even_IZR (n : Z) : round_half_even (IZR n) = n.
Proof.
  unfold round_half_even. rewrite ZfloorZ.
  destruct (Rlt_dec (IZR n - IZR n) (1 / 2)); [reflexivity | lra].
Qed.

Lemma round_half_even_le (y1 y2 : R) :
  y1 <= y2 -> (round_half_even y1 <= round_half_even y2)%Z.
Proof.
  intros Hy. pose proof (Zfloor_le y1 y2 Hy) as Hn.
  destruct (Z.eq_dec (Zfloor y1) (Zfloor y2)) as [Heq | Hne].
  - unfold round_half_even. rewrite <- Heq.
    destruct (Rlt_dec (y1 - IZR (Zfloor y1)) (1 / 2));
      destruct (Rlt_dec (y2 - IZR (Zfloor y1)) (1 / 2)); try lia; try lra;
      destruct (Rlt_dec (1 / 2) (y1 - IZR (Zfloor y1)));
      destruct (Rlt_dec (1 / 2) (y2 - IZR (Zfloor y1))); try lia; try lra;
      destruct (Z.even (Zfloor y1)); try lia; lra.
  - pose proof (round_half_even_range y1). pose proof (round_half_even_range y2). lia.
Qed.

Lemma round_half_even_lower (n : Z) (y : R) :
  IZR n <= y -> (n <= round_half_even y)%Z.
Proof.
  intros Hy. rewrite <- (round_half_even_IZR n). apply round_half_even_le. exact Hy.
Qed.

Lemma round_half_even_upper (n : Z) (y : R) :
  y <= IZR n -> (round_half_even y <= n)%Z.
Proof.
  intros Hy. rewrite <- (round_half_even_IZR n). apply round_half_even_le. exact Hy.
Qed.

(** The rounding of a positive real is monotone and not negative. *)
Lemma round_binary32_nonneg (x : R) : 0 < x -> 0 <= round_binary32 x.
Proof.
  intros Hx. unfold round_binary32.
  apply Rmult_le_pos; [|left; apply powerRZ_2_pos].
  apply IZR_le. apply round_half_even_lower.
  apply Rmult_le_pos; [lra | left; apply powerRZ_2_pos].
Qed.

Lemma powerRZ_2_Zpos (p : positive) : powerRZ 2 (Zpos p) = IZR (Z.pow_pos 2 p).
Proof.
  change (powerRZ 2 (Zpos p)) with (2 ^ Pos.to_nat p).
  rewrite pow_IZR, positive_nat_Z. reflexivity.
Qed.

Lemma powerRZ_2_Zneg (p : positive) : powerRZ 2 (Zneg p) = / IZR (Z.pow_pos 2 p).
Proof.
  change (powerRZ 2 (Zneg p)) with (/ 2 ^ Pos.to_nat p).
  rewrite pow_IZR, positive_nat_Z. reflexivity.
Qed.

Lemma powerRZ_2_23 : powerRZ 2 23 = IZR 8388608.
Proof. rewrite powerRZ_2_Zpos. reflexivity. Qed.

Lemma powerRZ_2_24 : powerRZ 2 24 = IZR 16777216.
Proof. rewrite powerRZ_2_Zpos. reflexivity. Qed.

Lemma round_binary32_le (x y : R) :
  0 < x -> x <= y -> round_binary32 x <= round_binary32 y.
Proof.
  intros Hx Hxy. assert (Hy : 0 < y) by lra.
  unfold round_binary32.
  set (ex := Z.max (binade x) (-126)). set (ey := Z.max (binade y) (-126)).
  pose proof (binade_le x y Hx Hxy) as Hb.
  destruct (Z.eq_dec ex ey) as [Heq | Hne].
  - rewrite <- Heq.
    apply Rmult_le_compat_r; [left; apply powerRZ_2_pos|].
    apply IZR_le, round_half_even_le.
    apply Rmult_le_compat_r; [left; apply powerRZ_2_pos | exact Hxy].
  - assert (Hlt : (ex < ey)%Z) by (unfold ex, ey in *; lia).
    assert (Hey : ey = binade y) by (unfold ex, ey in *; lia).
    assert (H24 : powerRZ 2 (ex + 1) * powerRZ 2 (23 - ex) = IZR 16777216)
      by (rewrite <- powerRZ_2_add, <- powerRZ_2_24; f_equal; lia).
    assert (H23 : powerRZ 2 ey * powerRZ 2 (23 - ey) = IZR 8388608)
      by (rewrite <- powerRZ_2_add, <- powerRZ_2_23; f_equal; lia).
    assert (Hupx : IZR 16777216 * powerRZ 2 (ex - 23) = powerRZ 2 (ex + 1))
      by (rewrite <- powerRZ_2_24, <- powerRZ_2_add; f_equal; lia).
    assert (Hloy : IZR 8388608 * powerRZ 2 (ey - 23) = powerRZ 2 ey)
      by (rewrite <- powerRZ_2_23, <- powerRZ_2_add; f_equal; lia).
    apply Rle_trans with (powerRZ 2 (ex + 1)).
    + rewrite <- Hupx.
      apply Rmult_le_compat_r; [left; apply powerRZ_2_pos|].
      apply IZR_le, round_half_even_upper.
      rewrite <- H24.
      apply Rmult_le_compat_r; [left; apply powerRZ_2_pos|].
      destruct (binade_bounds x Hx) as [_ Hup].
      apply Rle_trans with (powerRZ 2 (binade x + 1)); [lra|].
      apply powerRZ_2_le. unfold ex. lia.
    + apply Rle_trans with (powerRZ 2 ey); [apply powerRZ_2_le; lia|].
      rewrite <- Hloy.
      apply Rmult_le_compat_r; [left; apply powerRZ_2_pos|].
      apply IZR_le, round_half_even_lower.
      rewrite <- H23.
      apply Rmult_le_compat_r; [left; apply powerRZ_2_pos|].
      rewrite Hey. apply (binade_bounds y Hy).
Qed.

(** [np.float32] is monotone and exact at zero. *)
Lemma np_float32_0 : np_float32 0 = 0.
Proof.
  unfold np_float32. destruct (Rlt_dec 0 0); [lra|]. reflexivity.
Qed.

Lemma np_float32_le (x y : R) : x <= y -> np_float32 x <= np_float32 y.
Proof.
  intros Hxy. unfold np_float32.
  destruct (Rlt_dec 0 x) as [Hx | Hx]; destruct (Rlt_dec 0 y) as [Hy | Hy]; try lra.
  - apply round_binary32_le; assumption.
  - destruct (Rlt_dec x 0) as [Hx' | Hx'].
    + pose proof (round_binary32_nonneg (- x) ltac:(lra)).
      pose proof (round_binary32_nonneg y Hy). lra.
    + apply round_binary32_nonneg. exact Hy.
  - destruct (Rlt_dec x 0) as [Hx' | Hx']; destruct (Rlt_dec y 0) as [Hy' | Hy'];
      try lra.
    + pose proof (round_binary32_le (- y) (- x) ltac:(lra) ltac:(lra)). lra.
    + pose proof (round_binary32_nonneg (- x) ltac:(lra)). lra.
Qed.

(** The value at a real of a known binade. *)
Lemma round_binary32_at (x : R) (e : Z) :
  0 < x -> powerRZ 2 e <= x < powerRZ 2 (e + 1) -> (-126 <= e)%Z ->
  round_binary32 x =
  IZR (round_half_even (x * powerRZ 2 (23 - e))) * powerRZ 2 (e - 23).
Proof.
  intros Hx Hb He. unfold round_binary32.
  rewrite (binade_unique x e Hx Hb). rewrite Z.max_l by lia. reflexivity.
Qed.

(** A real with at most 24 significant bits is its own rounding. *)
Lemma np_float32_exact (x : R) (e n : Z) :
  0 < x -> powerRZ 2 e <= x < powerRZ 2 (e + 1) -> (-126 <= e)%Z ->
  x * powerRZ 2 (23 - e) = IZR n -> np_float32 x = x.
Proof.
  intros Hx Hb He Hn. unfold np_float32.
  destruct (Rlt_dec 0 x); [|lra].
  rewrite (round_binary32_at x e Hx Hb He), Hn, round_half_even_IZR, <- Hn.
  rewrite Rmult_assoc, <- powerRZ_2_add.
  replace (23 - e + (e - 23))%Z with 0%Z by lia. change (powerRZ 2 0) with 1. lra.
Qed.

End Binary32Facts.

(** Powers of two with a closed exponent, as numerals. *)
Ltac pow2_eval :=
  repeat match goal with
         | |- context [powerRZ 2 ?z] =>
             let v := eval vm_compute in z in progress change z with v
         end;
  repeat first [ rewrite powerRZ_2_Zpos | rewrite powerRZ_2_Zneg ];
  repeat match goal with
         | |- context [Z.pow_pos 2 ?p] =>
             let v := eval vm_compute in (Z.pow_pos 2 p) in
             change (Z.pow_pos 2 p) with v
         end;
  change (powerRZ 2 0) with 1%R.



Lemma np_float32_5 : np_float32 5 = 5%R.
Proof. apply (np_float32_exact 5 2 10485760); try lia; pow2_eval; lra. Qed.

Section Binary32Values.
Open Scope R_scope.

Lemma round_half_even_below (n : Z) (y : R) :
  IZR n <= y < IZR n + 1 / 2 -> round_half_even y = n.
Proof.
  intros [Hlo Hhi]. unfold round_half_even.
  rewrite (Zfloor_eq n y) by lra.
  destruct (Rlt_dec (y - IZR n) (1 / 2)); [reflexivity | lra].
Qed.

Lemma round_half_even_tie (n : Z) :
  round_half_even (IZR n + 1 / 2) = if Z.even n then n else (n + 1)%Z.
Proof.
  unfold round_half_even. rewrite (Zfloor_eq n (IZR n + 1 / 2)) by lra.
  destruct (Rlt_dec (IZR n + 1 / 2 - IZR n) (1 / 2)); [lra|].
  destruct (Rlt_dec (1 / 2) (IZR n + 1 / 2 - IZR n)); [lra|]. reflexivity.
Qed.

Lemma np_float32_at (x : R) (e : Z) :
  0 < x -> powerRZ 2 e <= x < powerRZ 2 (e + 1) -> (-126 <= e)%Z ->
  np_float32 x =
  IZR (round_half_even (x * powerRZ 2 (23 - e))) * powerRZ 2 (e - 23).
Proof.
  intros Hx Hb He. unfold np_float32. destruct (Rlt_dec 0 x); [|lra].
  apply round_binary32_at; assumption.
Qed.

End Binary32Values.

(** The single-precision rounding of the double written [0.7] is smaller
    than it. *)
Lemma np_float32_double_0_7 :
  np_float32 double_0_7 = (11744051 / 16777216)%R.
Proof.
  unfold double_0_7.
  rewrite (np_float32_at _ (-1)); try lia; [| lra | pow2_eval; lra].
  pow2_eval.
  rewrite (round_half_even_below 11744051); lra.
Qed.

(** The integer [2^24 + 1] lies half way between two single-precision
    numbers and is rounded to the even one. *)
Lemma np_float32_16777217 : np_float32 16777217 = 16777216%R.
Proof.
  rewrite (np_float32_at _ 24); try lia; [| lra | pow2_eval; lra].
  pow2_eval.
  replace (16777217 * / IZR 2)%R with (IZR 8388608 + 1 / 2)%R by lra.
  rewrite round_half_even_tie. cbn. lra.
Qed.

Section ScheduleFacts.
Context {F : Type} `{Framework F}.

Import CoarseGrainer.

(** The value that [tau] computes from the stored scalars and a step. *)
Lemma tau_stored (self : t F) (min_t init_t rate : R) :
  min_tau self = Some min_t -> init_tau self = Some init_t -> r self = Some rate ->
  tau self =
  Ok (np_float32
        (Rmax min_t
           (float_mul init_t (np_exp (float_mul (- rate) (_global_step self)))))).
Proof.
  intros Hm Hi Hr. unfold tau. rewrite Hm, Hi, Hr. cbn.
  rewrite py_max_Rmax. reflexivity.
Qed.

(** The value read after the setter, on an object built in embedding mode. *)
Lemma tau_after_setter (a : Args.t F) (self : t F) (steps : list R) (s : R) :
  Args.h_embed a = true -> __init__ a = Ok self ->
  tau (global_step_setter (run_steps self steps) s) =
  Ok (np_float32
        (Rmax (Args.min_temperature a)
           (float_mul (Args.init_temperature a)
              (np_exp (float_mul (- Args.relaxation_rate a) (np_float32 s)))))).
Proof.
  intros He Hinit.
  destruct (init_embed_schedule a self He Hinit) as (Hm & Hi & Hr & _).
  destruct (run_steps_attributes steps self) as (Hm' & Hi' & Hr' & _).
  apply (tau_stored (global_step_setter (run_steps self steps) s)); cbn; congruence.
Qed.

(** Without embedding the read raises, whatever steps are set. *)
Lemma tau_raises_in_direct_mode (a : Args.t F) (self : t F) (steps : list R) (s : R) :
  Args.h_embed a = false -> __init__ a = Ok self ->
  tau (global_step_setter (run_steps self steps) s) = Raise (AttributeError "min_tau").
Proof.
  intros He Hinit.
  pose proof (init_direct_no_schedule a self He Hinit) as Hm.
  destruct (run_steps_attributes steps self) as (Hm' & _).
  unfold tau. cbn. rewrite Hm', Hm. reflexivity.
Qed.


End ScheduleFacts.

(** The exact product and exponential are monotone. *)
Lemma exact_exp_monotone : @exp_monotone Z Z_framework.
Proof. intros x y Hxy. apply exp_nondecreasing. exact Hxy. Qed.

Lemma exact_mul_monotone : @mul_monotone Z Z_framework.
Proof. split; intros a x y Ha Hxy; cbn; nra. Qed.

(** C2, as the code has it: for every [CoarseGrainer] built with
    [h_embed=True], every step [s] and every [min_temperature],
    [init_temperature] and [relaxation_rate], the temperature read after the
    step is set to [s] is the single-precision rounding of
    [max(min_temperature, init_temperature * exp(-relaxation_rate * s32))],
    where [s32] is the single-precision rounding of [s] that the setter
    stores and the product and the exponential are the floating-point ones.
    It is at least the single-precision rounding of [min_temperature].  On
    the object just built it is the value at [s = 0], which (as the product
    by zero is zero, the exponential of zero is one and the product of
    [init_temperature] by one is exact) is the rounding of
    [init_temperature] when [init_temperature >= min_temperature] and the
    rounding of [min_temperature] otherwise. *)
Theorem tau_value_in_embedding_mode :
  forall (F : Type) (fw : Framework F) (a : CoarseGrainer.Args.t F)
         (self : CoarseGrainer.t F) (s : R),
    CoarseGrainer.Args.h_embed a = true ->
    CoarseGrainer.__init__ a = Ok self ->
    exists temperature,
      CoarseGrainer.tau (CoarseGrainer.global_step_setter self s) = Ok temperature /\
      temperature =
        np_float32
          (Rmax (CoarseGrainer.Args.min_temperature a)
                (float_mul (CoarseGrainer.Args.init_temperature a)
                   (np_exp (float_mul (- CoarseGrainer.Args.relaxation_rate a)
                              (np_float32 s))))) /\
      (np_float32 (CoarseGrainer.Args.min_temperature a) <= temperature)%R /\
      CoarseGrainer.tau self = CoarseGrainer.tau (CoarseGrainer.global_step_setter self 0) /\
      (float_mul (- CoarseGrainer.Args.relaxation_rate a) 0 = 0%R ->
       np_exp 0 = 1%R ->
       float_mul (CoarseGrainer.Args.init_temperature a) 1
         = CoarseGrainer.Args.init_temperature a ->
       s = 0%R ->
       ((CoarseGrainer.Args.min_temperature a <= CoarseGrainer.Args.init_temperature a)%R ->
        temperature = np_float32 (CoarseGrainer.Args.init_temperature a)) /\
       ((CoarseGrainer.Args.init_temperature a < CoarseGrainer.Args.min_temperature a)%R ->
        temperature = np_float32 (CoarseGrainer.Args.min_temperature a))).
Proof.
  intros F fw a self s He Hinit.
  eexists. split; [exact (tau_after_setter a self [] s He Hinit)|].
  split; [reflexivity|]. split; [apply np_float32_le, Rmax_l|]. split.
  - destruct (init_embed_schedule a self He Hinit) as (Hm & Hi & Hr & Hstep).
    rewrite (tau_after_setter a self [] 0 He Hinit
             : CoarseGrainer.tau (CoarseGrainer.global_step_setter self 0) = _).
    rewrite (tau_stored self _ _ _ Hm Hi Hr), Hstep, np_float32_0. reflexivity.
  - intros Hz He1 Hi1 ->. rewrite np_float32_0, Hz, He1, Hi1. split; intros Hcmp.
    + rewrite Rmax_right by exact Hcmp. reflexivity.
    + rewrite Rmax_left by lra. reflexivity.
Qed.

Lemma tau_value_in_embedding_mode_witness :
  exists self,
    CoarseGrainer.__init__
      (embedding_args (F := Z) [2; 2] 3 false true double_0_01 double_0_7 double_0_5)
      = Ok self /\
    exists temperature,
      CoarseGrainer.tau (CoarseGrainer.global_step_setter self 0) = Ok temperature /\
      temperature =
        np_float32 (Rmax double_0_7
                      (double_0_5 * exp (- double_0_01 * np_float32 0))) /\
      (np_float32 double_0_7 <= temperature)%R /\
      CoarseGrainer.tau self = CoarseGrainer.tau (CoarseGrainer.global_step_setter self 0) /\
      temperature = np_float32 double_0_7.
Proof.
  eexists. split; [reflexivity|].
  destruct (tau_value_in_embedding_mode Z Z_framework
              (embedding_args [2; 2] 3 false true double_0_01 double_0_7 double_0_5) _ 0
              eq_refl eq_refl)
    as (temperature & Htau & Hval & Hfloor & Hfresh & Hzero).
  exists temperature.
  split; [exact Htau|]. split; [exact Hval|]. split; [exact Hfloor|].
  split; [exact Hfresh|].
  refine (proj2 (Hzero _ exp_0 _ eq_refl) _);
    cbn; unfold double_0_01, double_0_5, double_0_7; lra.
Defined.

(** C2, as the specification has it, fails twice.  On the object that the
    defaults build ([h_embed=False]) the schedule is not stored, and reading
    the temperature raises [AttributeError].  And with [h_embed=True],
    [min_temperature=0.7] and [init_temperature=0.5], the temperature read on
    the object just built is the single-precision rounding of [0.7], which
    is below [min_temperature] and is not the maximum. *)
Lemma tau_raises_without_embedding :
  (exists self,
     CoarseGrainer.__init__ (default_args [2; 2] 3) = Ok self /\
     CoarseGrainer.tau self = Raise (AttributeError "min_tau")) /\
  (exists self,
     CoarseGrainer.__init__
       (embedding_args (F := Z) [2; 2] 3 false true double_0_01 double_0_7 double_0_5)
       = Ok self /\
     CoarseGrainer.tau self = Ok (11744051 / 16777216)%R /\
     (11744051 / 16777216 < double_0_7)%R /\
     (11744051 / 16777216)%R <> Rmax double_0_7 (double_0_5 * exp (- double_0_01 * 0))).
Proof.
  split.
  - eexists. split; reflexivity.
  - eexists. split; [reflexivity|].
    assert (Hmax : Rmax double_0_7 (double_0_5 * exp (- double_0_01 * 0)) = double_0_7).
    { replace (- double_0_01 * 0)%R with 0%R by lra. rewrite exp_0.
      apply Rmax_left. unfold double_0_7, double_0_5. lra. }
    split.
    + destruct (@init_embed_schedule Z Z_framework
                  (embedding_args [2; 2] 3 false true double_0_01 double_0_7 double_0_5)
                  _ eq_refl eq_refl) as (Hm & Hi & Hr & Hstep).
      rewrite (tau_stored _ _ _ _ Hm Hi Hr), Hstep.
      cbn [CoarseGrainer.Args.min_temperature CoarseGrainer.Args.init_temperature
           CoarseGrainer.Args.relaxation_rate embedding_args
           float_mul np_exp Z_framework].
      rewrite Hmax, np_float32_double_0_7. reflexivity.
    + rewrite Hmax. unfold double_0_7. split; lra.
Qed.




(** C8, as the code has it: for every [CoarseGrainer] built with
    [h_embed=True], whatever steps were set before, setting the step to [s]
    and then reading the temperature gives the value computed from the
    single-precision rounding of [s], which is what the setter stores and
    the getter returns. *)
Theorem tau_follows_global_step :
  forall (F : Type) (fw : Framework F) (a : CoarseGrainer.Args.t F)
         (self : CoarseGrainer.t F) (earlier : list R) (s : R),
    CoarseGrainer.Args.h_embed a = true ->
    CoarseGrainer.__init__ a = Ok self ->
    CoarseGrainer.tau (CoarseGrainer.global_step_setter (run_steps self earlier) s) =
      Ok (np_float32
            (Rmax (CoarseGrainer.Args.min_temperature a)
                  (float_mul (CoarseGrainer.Args.init_temperature a)
                     (np_exp (float_mul (- CoarseGrainer.Args.relaxation_rate a)
                                (np_float32 s)))))) /\
    CoarseGrainer.global_step
      (CoarseGrainer.global_step_setter (run_steps self earlier) s) = np_float32 s.
Proof.
  intros F fw a self earlier s He Hinit. split.
  - exact (tau_after_setter a self earlier s He Hinit).
  - reflexivity.
Qed.

Lemma tau_follows_global_step_witness :
  exists self,
    CoarseGrainer.__init__
      (embedding_args (F := Z) [2; 2] 3 false true double_0_01 double_0_7 double_0_5)
      = Ok self /\
    CoarseGrainer.tau
      (CoarseGrainer.global_step_setter (run_steps self [7; 3]%R) 16777217) =
      Ok (np_float32
            (Rmax double_0_7
                  (double_0_5 * exp (- double_0_01 * np_float32 16777217)))) /\
    CoarseGrainer.global_step
      (CoarseGrainer.global_step_setter (run_steps self [7; 3]%R) 16777217)
      = np_float32 16777217.
Proof.
  eexists. split; [reflexivity|].
  exact (tau_follows_global_step Z Z_framework
           (embedding_args [2; 2] 3 false true double_0_01 double_0_7 double_0_5) _
           [7; 3]%R 16777217 eq_refl eq_refl).
Defined.

(** C8, as the specification has it, fails: on the object that the defaults
    build ([h_embed=False]), setting the step to 5 and then reading the
    temperature raises [AttributeError]; no value is computed from the step.
    And the step that is stored is the rounded one: after the setter is
    given [16777217] the getter returns [16777216]. *)
Lemma tau_after_setter_raises_without_embedding :
  exists self,
    CoarseGrainer.__init__ (default_args [2; 2] 3) = Ok self /\
    CoarseGrainer.tau (CoarseGrainer.global_step_setter self 5)
      = Raise (AttributeError "min_tau") /\
    CoarseGrainer.global_step (CoarseGrainer.global_step_setter self 16777217)
      = 16777216%R.
Proof.
  eexists. split; [reflexivity|]. split; [reflexivity|].
  exact np_float32_16777217.
Qed.

(** ** Assembly of the pipeline *)

Section PipelineFacts.
Context {F : Type} `{Framework F}.

Import CoarseGrainer.

(** The weights of the linear stage that the constructor assigns are
    [float32] and have the shape [ll + (num_hiddens,)] when the explicit
    array, if any, is and has. *)
Lemma init_ws_shape (a : Args.t F) (self : t F) (cg : ConvLayer F) :
  __init__ a = Ok self -> init_rule_fits a -> coarse_grainer self = Some cg ->
  length (Args.ll a) = spatial_rank cg /\
  shape (ConvLayer_ws cg) = Args.ll a ++ [Args.num_hiddens a] /\
  ConvLayer_dtype cg = float32.
Proof.
  intros Hinit Hfits Hcg.
  rewrite (init_coarse_grainer a self Hinit) in Hcg.
  destruct (length (Args.ll a) =? 2) eqn:H2;
    [| destruct (length (Args.ll a) =? 3) eqn:H3 ]; try discriminate;
    injection Hcg as <-; cbn.
  - split; [apply Nat.eqb_eq; exact H2|].
    unfold init_rule_fits in Hfits.
    destruct (Args.init_rule a) as [|dtype w|]; cbn;
      [split; reflexivity | destruct Hfits; split; assumption | split; reflexivity].
  - split; [apply Nat.eqb_eq; exact H3 | split; reflexivity].
Qed.

(** The three stages of the mode without embedding, run in order. *)
Lemma direct_pipeline_call (self : t F) (cg : ConvLayer F) (name : string)
    (f : list nat -> list F -> list F) (V : Tensor F) (spatial : list nat)
    (nt nk ns : nat) :
  _Λ self = Some [LConv cg; LActivation (named name); LFlatten] ->
  activations_get name = Some f ->
  ConvLayer_dtype cg = float32 ->
  length spatial = spatial_rank cg ->
  shape V = nt :: spatial ++ [nk] ->
  shape (ConvLayer_ws cg) = spatial ++ [ns] ->
  exists out, call self V = Ok out /\ shape out = [nt; ns * nk].
Proof.
  intros HΛ Hact Hdt Hrank HV Hws.
  unfold call. rewrite HΛ. cbn [getattr bind Sequential_call Layer_call].
  unfold ConvLayer_run. rewrite Hdt. cbn [is_float32].
  rewrite (ConvLayer_call_spec cg V spatial nt nk ns Hrank HV Hws).
  cbn [bind]. unfold Activation_call. rewrite Hact.
  cbn. eexists. split; [reflexivity|].
  cbn [shape]. rewrite Nat.mul_1_r. reflexivity.
Qed.

End PipelineFacts.

(** C4, as the code has it: for every [CoarseGrainer] built with
    [h_embed=False], whose explicit weights, if any, are a [float32] array
    of shape [ll + (num_hiddens,)], the pipeline is the linear stage, then
    the activation named by [conv_activation], then flatten; on every batch
    of shape [(batch,) + ll + (nk,)], for two or three spatial axes alike,
    [call] returns a tensor of shape [(batch, num_hiddens * nk)], which is
    [(batch, num_hiddens)] when the trailing axis has size one. *)
Theorem direct_call_output_shape :
  forall (F : Type) (fw : Framework F) (a : CoarseGrainer.Args.t F)
         (self : CoarseGrainer.t F) (V : Tensor F) (batch nk : nat),
    CoarseGrainer.Args.h_embed a = false ->
    CoarseGrainer.__init__ a = Ok self ->
    init_rule_fits a ->
    shape V = batch :: CoarseGrainer.Args.ll a ++ [nk] ->
    exists cg out,
      CoarseGrainer.coarse_grainer self = Some cg /\
      CoarseGrainer._Λ self =
        Some [LConv cg; LActivation (named (CoarseGrainer.Args.conv_activation a)); LFlatten] /\
      CoarseGrainer.call self V = Ok out /\
      shape out = [batch; CoarseGrainer.Args.num_hiddens a * nk] /\
      (nk = 1 -> shape out = [batch; CoarseGrainer.Args.num_hiddens a]).
Proof.
  intros F fw a self V batch nk He Hinit Hfits HV.
  destruct (init_direct_pipeline a self He Hinit) as (cg & f & Hcg & Hact & HΛ).
  destruct (init_ws_shape a self cg Hinit Hfits Hcg) as (Hrank & Hws & Hdt).
  destruct (direct_pipeline_call self cg _ f V _ batch nk _ HΛ Hact Hdt Hrank HV Hws)
    as (out & Hcall & Hshape).
  exists cg, out. repeat split; try assumption.
  intros ->. rewrite Hshape, Nat.mul_1_r. reflexivity.
Qed.

Lemma direct_call_output_shape_witness :
  exists self,
    CoarseGrainer.__init__ (default_args [2; 2; 2] 3) = Ok self /\
    exists cg out,
      CoarseGrainer.coarse_grainer self = Some cg /\
      CoarseGrainer._Λ self = Some [LConv cg; LActivation (named "tanh"); LFlatten] /\
      CoarseGrainer.call self (full [5; 2; 2; 2; 1] 1%Z) = Ok out /\
      shape out = [5; 3 * 1] /\
      (1 = 1 -> shape out = [5; 3]).
Proof.
  eexists. split; [reflexivity|].
  exact (direct_call_output_shape Z Z_framework (default_args [2; 2; 2] 3) _
           (full [5; 2; 2; 2; 1] 1%Z) 5 1 eq_refl eq_refl I eq_refl).
Defined.

(** C4, as the specification has it, fails: the object built by the defaults
    for blocks of shape [(2, 2)] and three hidden units maps a batch of five
    blocks with a trailing axis of size two to shape [(5, 6)], not [(5, 3)];
    it refuses the batch of shape [(5, 2, 2)], which has no trailing axis;
    and the object built with the zero array of NumPy's default dtype
    [float64] and shape [(2, 2, 3)] as weights refuses the batch of shape
    [(5, 2, 2, 1)]. *)
Lemma direct_call_shape_not_batch_num_hiddens :
  (exists self,
     CoarseGrainer.__init__ (default_args [2; 2] 3) = Ok self /\
     (exists out,
        CoarseGrainer.call self (full [5; 2; 2; 2] 0%Z) = Ok out /\
        shape out = [5; 6] /\ shape out <> [5; 3]) /\
     CoarseGrainer.call self (full [5; 2; 2] 0%Z) = Raise InvalidArgumentError) /\
  (exists self,
     CoarseGrainer.__init__
       (with_init_rule (default_args [2; 2] 3) (NdArray float64 (full [2; 2; 3] 0%Z)))
       = Ok self /\
     CoarseGrainer.call self (full [5; 2; 2; 1] 0%Z) = Raise InvalidArgumentError).
Proof.
  split.
  - eexists. split; [reflexivity|]. split; [|reflexivity].
    eexists. split; [reflexivity|]. split; [reflexivity|discriminate].
  - eexists. split; reflexivity.
Qed.

(** The 2-d stage takes an explicit array as its weights, and draws them
    otherwise; the 3-d stage draws them whatever [init_rule] is. *)
Lemma Conv2DSingle_ws_init (F : Type) (fw : Framework F)
    (hidden_dim : nat) (input_shape : list nat) (init_rule : InitRule F) :
  Conv2DSingle.ws (Conv2DSingle.__init__ hidden_dim input_shape init_rule) =
  match init_rule with
  | NdArray _ w => w
  | _ => w_init (input_shape ++ [hidden_dim])
  end.
Proof. destruct init_rule; reflexivity. Qed.

Lemma CoarseGrainer_3d_ws_drawn (F : Type) (fw : Framework F)
    (a : CoarseGrainer.Args.t F) (self : CoarseGrainer.t F) :
  length (CoarseGrainer.Args.ll a) = 3 ->
  CoarseGrainer.__init__ a = Ok self ->
  exists cg,
    CoarseGrainer.coarse_grainer self = Some cg /\
    ConvLayer_ws cg =
      w_init (CoarseGrainer.Args.ll a ++ [CoarseGrainer.Args.num_hiddens a]).
Proof.
  intros Hlen Hinit. rewrite (init_coarse_grainer a self Hinit), Hlen. cbn.
  eexists. split; reflexivity.
Qed.

(** C5, where the code departs from it: built for blocks of shape
    [(2, 2, 2)] with one hidden unit and the zero array of shape
    [(2, 2, 2, 1)] (of NumPy's default dtype) as [init_rule], the linear
    stage holds weights drawn by the initializer, not the array; the same
    call for blocks of shape [(2, 2)] holds the array. *)
Theorem explicit_weights_dropped_in_3d :
  (exists self cg,
     CoarseGrainer.__init__
       (with_init_rule (default_args [2; 2; 2] 1)
          (NdArray float64 (full [2; 2; 2; 1] 0%Z)))
       = Ok self /\
     CoarseGrainer.coarse_grainer self = Some cg /\
     ConvLayer_ws cg = w_init [2; 2; 2; 1] /\
     ConvLayer_ws cg <> full [2; 2; 2; 1] 0%Z) /\
  (exists self cg,
     CoarseGrainer.__init__
       (with_init_rule (default_args [2; 2] 1) (NdArray float64 (full [2; 2; 1] 0%Z)))
       = Ok self /\
     CoarseGrainer.coarse_grainer self = Some cg /\
     ConvLayer_ws cg = full [2; 2; 1] 0%Z).
Proof.
  split.
  - do 2 eexists. split; [reflexivity|]. split; [reflexivity|].
    split; [reflexivity|discriminate].
  - do 2 eexists. split; [reflexivity|]. split; reflexivity.
Qed.

(** C6: for every [CoarseGrainer] built with [h_embed=True], with [Nq] unset
    or set, the softmax activation is in the assembled pipeline exactly when
    [use_probs] is selected, and then the sampling stage takes probabilities;
    when the outputs are treated as logits the pipeline is the linear stage,
    flatten and the sampling stage, with no activation in between. *)
Theorem softmax_present_iff_use_probs :
  forall (F : Type) (fw : Framework F) (a : CoarseGrainer.Args.t F)
         (self : CoarseGrainer.t F),
    CoarseGrainer.Args.h_embed a = true ->
    CoarseGrainer.__init__ a = Ok self ->
    normalizes self = CoarseGrainer.Args.use_probs a /\
    (CoarseGrainer.Args.use_probs a = true ->
     exists cg e,
       CoarseGrainer._Λ self =
         Some [LConv cg; LActivation tf_nn_softmax; LFlatten; LLambda e] /\
       parametrization e = probs) /\
    (CoarseGrainer.Args.use_probs a = false ->
     CoarseGrainer.Args.use_logits a = true ->
     exists cg e,
       CoarseGrainer._Λ self = Some [LConv cg; LFlatten; LLambda e] /\
       parametrization e = logits).
Proof.
  intros F fw a self He. revert He.
  init_cases; intros He Hinit; try discriminate; injection Hinit as <-; cbn;
    (split; [reflexivity|]); split; intros; try discriminate; eauto.
Qed.

Lemma softmax_present_iff_use_probs_witness :
  exists self,
    CoarseGrainer.__init__
      (embedding_args [2; 2] 3 true false (1 / 100) (5 / 100) 2) = Ok self /\
    normalizes self = true /\
    (true = true ->
     exists cg e,
       CoarseGrainer._Λ self =
         Some [LConv cg; LActivation tf_nn_softmax; LFlatten; LLambda e] /\
       parametrization e = probs) /\
    (true = false -> false = true ->
     exists cg e,
       CoarseGrainer._Λ self = Some [LConv cg; LFlatten; LLambda e] /\
       parametrization e = logits).
Proof.
  eexists. split; [reflexivity|].
  exact (softmax_present_iff_use_probs Z Z_framework
           (embedding_args [2; 2] 3 true false (1 / 100) (5 / 100) 2) _
           eq_refl eq_refl).
Defined.

(** C7, as the code has it: for every block shape whose number of axes is
    neither 2 nor 3 the constructor assigns no linear stage and has no shape
    check to raise from.  Where a pipeline is assembled ([h_embed] false, or
    [use_probs] or [use_logits] set) construction stops at the first read of
    [self.coarse_grainer] with [AttributeError]; where none is ([h_embed] set
    and both flags false) it completes, and the object has neither a linear
    stage nor a pipeline. *)
Theorem unsupported_block_shape_outcome :
  forall (F : Type) (fw : Framework F) (a : CoarseGrainer.Args.t F),
    length (CoarseGrainer.Args.ll a) <> 2 ->
    length (CoarseGrainer.Args.ll a) <> 3 ->
    (negb (CoarseGrainer.Args.h_embed a) || CoarseGrainer.Args.use_probs a
       || CoarseGrainer.Args.use_logits a = true ->
     CoarseGrainer.__init__ a = Raise (AttributeError "coarse_grainer")) /\
    (CoarseGrainer.Args.h_embed a = true ->
     CoarseGrainer.Args.use_probs a = false ->
     CoarseGrainer.Args.use_logits a = false ->
     exists self,
       CoarseGrainer.__init__ a = Ok self /\
       CoarseGrainer.coarse_grainer self = None /\
       CoarseGrainer._Λ self = None).
Proof.
  intros F fw a H2 H3.
  apply Nat.eqb_neq in H2, H3.
  unfold CoarseGrainer.__init__. rewrite H2, H3.
  destruct (CoarseGrainer.Args.h_embed a), (CoarseGrainer.Args.Nq a),
    (CoarseGrainer.Args.use_probs a), (CoarseGrainer.Args.use_logits a);
    cbn; split; intros; try discriminate; try reflexivity;
    eexists; repeat split.
Qed.

Lemma unsupported_block_shape_outcome_witness :
  (negb false || false || true = true ->
   CoarseGrainer.__init__ (default_args (F := Z) [2; 2; 2; 2] 3)
     = Raise (AttributeError "coarse_grainer")) /\
  (false = true -> false = false -> true = false ->
   exists self,
     CoarseGrainer.__init__ (default_args (F := Z) [2; 2; 2; 2] 3) = Ok self /\
     CoarseGrainer.coarse_grainer self = None /\
     CoarseGrainer._Λ self = None).
Proof.
  apply (unsupported_block_shape_outcome Z Z_framework (default_args [2; 2; 2; 2] 3));
    cbn; lia.
Defined.

(** C7, as the specification has it, fails: for the block shape
    [(2, 2, 2, 2)], with [h_embed=True] and both flags false, construction
    completes and the object has no linear stage; with the defaults it stops
    with the attribute-lookup error, the only error the constructor can
    raise for a block shape. *)
Lemma four_axes_construct_without_linear_stage :
  (exists self,
     CoarseGrainer.__init__
       (embedding_args (F := Z) [2; 2; 2; 2] 3 false false (1 / 100) (5 / 100) 2)
       = Ok self /\
     CoarseGrainer.coarse_grainer self = None /\
     CoarseGrainer._Λ self = None) /\
  CoarseGrainer.__init__ (default_args (F := Z) [2; 2; 2; 2] 3)
    = Raise (AttributeError "coarse_grainer").
Proof.
  split; [|reflexivity].
  eexists. split; [reflexivity|]. split; reflexivity.
Qed.

(** C9, as the code has it: for every embedding configuration
    ([h_embed=True], [Nq] unset or set) over a block shape of two or three
    axes, where [use_probs] and [use_logits] are both true, construction
    succeeds and builds the pipeline of the probabilities: linear stage,
    softmax, flatten, and the sampling stage parametrized by [probs]. *)
Theorem probs_take_precedence_over_logits :
  forall (F : Type) (fw : Framework F) (a : CoarseGrainer.Args.t F),
    CoarseGrainer.Args.h_embed a = true ->
    CoarseGrainer.Args.use_probs a = true ->
    CoarseGrainer.Args.use_logits a = true ->
    length (CoarseGrainer.Args.ll a) = 2 \/ length (CoarseGrainer.Args.ll a) = 3 ->
    exists self cg,
      CoarseGrainer.__init__ a = Ok self /\
      CoarseGrainer.coarse_grainer self = Some cg /\
      CoarseGrainer._Λ self =
        Some [LConv cg; LActivation tf_nn_softmax; LFlatten;
              LLambda (Lambda
                         match CoarseGrainer.Args.Nq a with
                         | None => RelaxedBernoulli
                         | Some _ => RelaxedOneHotCategorical
                         end probs)] /\
      normalizes self = true.
Proof.
  intros F fw a He Hp Hl Hlen.
  unfold CoarseGrainer.__init__. rewrite He, Hp.
  destruct Hlen as [Hlen | Hlen]; rewrite Hlen;
    destruct (CoarseGrainer.Args.Nq a); cbn;
    do 2 eexists; repeat split.
Qed.

Lemma probs_take_precedence_over_logits_witness :
  exists self cg,
    CoarseGrainer.__init__
      (embedding_args (F := Z) [2; 2] 3 true true (1 / 100) (5 / 100) 2) = Ok self /\
    CoarseGrainer.coarse_grainer self = Some cg /\
    CoarseGrainer._Λ self =
      Some [LConv cg; LActivation tf_nn_softmax; LFlatten;
            LLambda (Lambda RelaxedBernoulli probs)] /\
    normalizes self = true.
Proof.
  apply (probs_take_precedence_over_logits Z Z_framework
           (embedding_args [2; 2] 3 true true (1 / 100) (5 / 100) 2)
           eq_refl eq_refl eq_refl (or_introl eq_refl)).
Defined.

(** C9, as the specification has it, fails: for the block shape
    [(2, 2, 2, 2)], with [h_embed=True] and both flags true, construction
    does not succeed; it stops with [AttributeError] at the first read of
    [self.coarse_grainer], for [Nq] unset and for [Nq = 4] alike. *)
Lemma both_flags_four_axes_construction_fails :
  CoarseGrainer.__init__
    (embedding_args (F := Z) [2; 2; 2; 2] 3 true true (1 / 100) (5 / 100) 2)
  = Raise (AttributeError "coarse_grainer") /\
  CoarseGrainer.__init__
    (with_Nq (embedding_args (F := Z) [2; 2; 2; 2] 3 true true (1 / 100) (5 / 100) 2)
       (Some 4%Z))
  = Raise (AttributeError "coarse_grainer").
Proof. split; reflexivity. Qed.

(** C10: for every configuration with [h_embed=True], [use_probs=False] and
    [use_logits=False] the constructor completes without raising, assigns no
    pipeline, and every later [call(V)], whatever steps are set in between,
    raises [AttributeError] on [_Λ]. *)
Theorem no_flag_no_pipeline :
  forall (F : Type) (fw : Framework F) (a : CoarseGrainer.Args.t F),
    CoarseGrainer.Args.h_embed a = true ->
    CoarseGrainer.Args.use_probs a = false ->
    CoarseGrainer.Args.use_logits a = false ->
    exists self,
      CoarseGrainer.__init__ a = Ok self /\
      CoarseGrainer._Λ self = None /\
      forall (steps : list R) (V : Tensor F),
        CoarseGrainer.call (run_steps self steps) V = Raise (AttributeError "_Λ").
Proof.
  intros F fw a He Hp Hl.
  assert (Hinit : exists self,
            CoarseGrainer.__init__ a = Ok self /\ CoarseGrainer._Λ self = None).
  { unfold CoarseGrainer.__init__. rewrite He, Hp, Hl.
    destruct (length (CoarseGrainer.Args.ll a) =? 2);
      [| destruct (length (CoarseGrainer.Args.ll a) =? 3) ];
      destruct (CoarseGrainer.Args.Nq a); cbn; eexists; split; reflexivity. }
  destruct Hinit as (self & Hinit & HΛ).
  exists self. split; [exact Hinit|]. split; [exact HΛ|].
  intros steps V.
  destruct (run_steps_attributes steps self) as (_ & _ & _ & HΛ' & _).
  unfold CoarseGrainer.call. rewrite HΛ', HΛ. reflexivity.
Qed.

Lemma no_flag_no_pipeline_witness :
  exists self,
    CoarseGrainer.__init__
      (embedding_args (F := Z) [2; 2] 3 false false (1 / 100) (5 / 100) 2) = Ok self /\
    CoarseGrainer._Λ self = None /\
    forall (steps : list R) (V : Tensor Z),
      CoarseGrainer.call (run_steps self steps) V = Raise (AttributeError "_Λ").
Proof.
  apply (no_flag_no_pipeline Z Z_framework
           (embedding_args [2; 2] 3 false false (1 / 100) (5 / 100) 2)
           eq_refl eq_refl eq_refl).
Defined.

(** * Further properties of the code *)

(** ** The linear stage *)

Section ContractionFacts.
Context {F : Type} `{Framework F}.

Lemma sum_range_ext (n : nat) (f g : nat -> F) :
  (forall i, i < n -> f i = g i) -> sum_range n f = sum_range n g.
Proof.
  intros Hfg. unfold sum_range.
  assert (Hin : forall i, In i (seq 0 n) -> f i = g i)
    by (intros i Hi; apply Hfg; apply in_seq in Hi; lia).
  induction (seq 0 n) as [|i l IH]; cbn.
  - reflexivity.
  - rewrite (Hin i (or_introl eq_refl)), IH; [reflexivity|].
    intros j Hj. apply Hin. right. exact Hj.
Qed.

Lemma sum_over_ext (dims : list nat) (f g : list nat -> F) :
  (forall idx, Forall2 lt idx dims -> f idx = g idx) ->
  sum_over dims f = sum_over dims g.
Proof.
  revert f g. induction dims as [|d dims IH]; intros f g Hfg; cbn.
  - apply Hfg. constructor.
  - apply sum_range_ext. intros i Hi. apply IH.
    intros idx Hidx. apply Hfg. constructor; assumption.
Qed.

Lemma sum_range_zero (n : nat) :
  fadd fzero fzero = fzero -> sum_range n (fun _ => fzero) = fzero.
Proof.
  intros Hz. unfold sum_range. induction (seq 0 n) as [|i l IH]; cbn.
  - reflexivity.
  - rewrite IH. exact Hz.
Qed.

Lemma sum_over_zero (dims : list nat) :
  fadd fzero fzero = fzero -> sum_over dims (fun _ => fzero) = fzero.
Proof.
  intros Hz. induction dims as [|d dims IH]; cbn.
  - reflexivity.
  - transitivity (sum_range d (fun _ => fzero)).
    + apply sum_range_ext. intros i _. exact IH.
    + apply sum_range_zero. exact Hz.
Qed.

End ContractionFacts.

(** X1. The linear stage treats the samples of a batch independently: when
    sample [t1] of one batch and sample [t2] of another hold the same block,
    their outputs are equal, whatever the other samples and the sizes of the
    two batches are. *)
Theorem linear_stage_samples_independent :
  forall (F : Type) (fw : Framework F) (c : ConvLayer F) (x1 x2 : Tensor F)
         (spatial : list nat) (n1 n2 nk ns t1 t2 : nat),
    length spatial = spatial_rank c ->
    shape (ConvLayer_ws c) = spatial ++ [ns] ->
    shape x1 = n1 :: spatial ++ [nk] ->
    shape x2 = n2 :: spatial ++ [nk] ->
    t1 < n1 -> t2 < n2 ->
    (forall idx k, Forall2 lt idx spatial -> k < nk ->
       item x1 (t1 :: idx ++ [k]) = item x2 (t2 :: idx ++ [k])) ->
    exists out1 out2,
      ConvLayer_call c x1 = Ok out1 /\
      ConvLayer_call c x2 = Ok out2 /\
      forall s k, s < ns -> k < nk ->
        item out1 [t1; s; k] = item out2 [t2; s; k].
Proof.
  intros F fw c x1 x2 spatial n1 n2 nk ns t1 t2 Hrank Hw Hx1 Hx2 Ht1 Ht2 Hsame.
  do 2 eexists.
  split; [exact (ConvLayer_call_spec c x1 spatial n1 nk ns Hrank Hx1 Hw)|].
  split; [exact (ConvLayer_call_spec c x2 spatial n2 nk ns Hrank Hx2 Hw)|].
  intros s k Hs Hk.
  rewrite (item_rows3 n1 ns nk _ t1 s k Ht1 Hs Hk).
  rewrite (item_rows3 n2 ns nk _ t2 s k Ht2 Hs Hk).
  apply sum_over_ext. intros idx Hidx.
  rewrite (Hsame idx k Hidx Hk). reflexivity.
Qed.

Lemma linear_stage_samples_independent_witness :
  let layer := Conv2D (Conv2DSingle.__init__ 3 [2; 2] PyNone) in
  exists out1 out2,
    ConvLayer_call layer (full [5; 2; 2; 1] 4%Z) = Ok out1 /\
    ConvLayer_call layer (full [2; 2; 2; 1] 4%Z) = Ok out2 /\
    forall s k, s < 3 -> k < 1 -> item out1 [3; s; k] = item out2 [1; s; k].
Proof.
  apply (linear_stage_samples_independent Z Z_framework
           (Conv2D (Conv2DSingle.__init__ 3 [2; 2] PyNone))
           (full [5; 2; 2; 1] 4%Z) (full [2; 2; 2; 1] 4%Z) [2; 2] 5 2 1 3 3 1);
    try reflexivity; try lia.
  intros idx k Hidx Hk.
  inversion Hidx as [|i ni idx1 l1 Hi Hidx1]; subst.
  inversion Hidx1 as [|j nj idx2 l2 Hj Hidx2]; subst.
  inversion Hidx2; subst.
  destruct i as [|[|i]]; [| |lia]; destruct j as [|[|j]]; [| |lia| | |lia];
    destruct k as [|k]; [|lia| |lia| |lia| |lia]; reflexivity.
Defined.

(** X2. The linear stage has no bias: when the scalars satisfy [0 + 0 = 0]
    and [0 * w = 0], a block whose entries are all zero is mapped to zero in
    every hidden channel, whatever the weights are. *)
Theorem linear_stage_maps_zero_to_zero :
  forall (F : Type) (fw : Framework F) (c : ConvLayer F) (inputs : Tensor F)
         (spatial : list nat) (nt nk ns t : nat),
    fadd fzero fzero = fzero ->
    (forall w, fmul fzero w = fzero) ->
    length spatial = spatial_rank c ->
    shape (ConvLayer_ws c) = spatial ++ [ns] ->
    shape inputs = nt :: spatial ++ [nk] ->
    t < nt ->
    (forall idx k, Forall2 lt idx spatial -> k < nk ->
       item inputs (t :: idx ++ [k]) = fzero) ->
    exists out,
      ConvLayer_call c inputs = Ok out /\
      forall s k, s < ns -> k < nk -> item out [t; s; k] = fzero.
Proof.
  intros F fw c inputs spatial nt nk ns t Hadd Hmul Hrank Hw Hx Ht Hzero.
  eexists.
  split; [exact (ConvLayer_call_spec c inputs spatial nt nk ns Hrank Hx Hw)|].
  intros s k Hs Hk.
  rewrite (item_rows3 nt ns nk _ t s k Ht Hs Hk).
  rewrite <- (sum_over_zero spatial Hadd).
  apply sum_over_ext. intros idx Hidx.
  rewrite (Hzero idx k Hidx Hk). apply Hmul.
Qed.

Lemma linear_stage_maps_zero_to_zero_witness :
  exists out,
    ConvLayer_call (Conv2D (Conv2DSingle.__init__ 3 [2; 2] PyNone))
      (full [5; 2; 2; 1] 0%Z) = Ok out /\
    forall s k, s < 3 -> k < 1 -> item out [4; s; k] = 0%Z.
Proof.
  apply (linear_stage_maps_zero_to_zero Z Z_framework
           (Conv2D (Conv2DSingle.__init__ 3 [2; 2] PyNone))
           (full [5; 2; 2; 1] 0%Z) [2; 2] 5 1 3 4);
    try reflexivity; try lia.
  intros idx k Hidx Hk.
  inversion Hidx as [|i ni idx1 l1 Hi Hidx1]; subst.
  inversion Hidx1 as [|j nj idx2 l2 Hj Hidx2]; subst.
  inversion Hidx2; subst.
  destruct i as [|[|i]]; [| |lia]; destruct j as [|[|j]]; [| |lia| | |lia];
    destruct k as [|k]; [|lia| |lia| |lia| |lia]; reflexivity.
Defined.

(** The shapes that the linear stage accepts, and the error on the others. *)
Lemma linear_stage_accepts_iff_aux {F : Type} {fw : Framework F}
    (c : ConvLayer F) (inputs : Tensor F) :
    ((exists out, ConvLayer_call c inputs = Ok out) <->
     (exists spatial nt nk ns,
        length spatial = spatial_rank c /\
        shape inputs = nt :: spatial ++ [nk] /\
        shape (ConvLayer_ws c) = spatial ++ [ns])) /\
    (forall e, ConvLayer_call c inputs = Raise e -> e = InvalidArgumentError).
Proof.
  split; [split|].
  - intros [out Hcall]. destruct c as [c|c]; cbn in *.
    + unfold Conv2DSingle.call, einsum_tijk_ijs_tsk in Hcall.
      destruct (shape inputs) as [|nt [|ni [|nj [|nk [|? ?]]]]]; try discriminate;
        destruct (shape (Conv2DSingle.ws c)) as [|ni' [|nj' [|ns [|? ?]]]];
        try discriminate.
      destruct (ni =? ni') eqn:Hi; [|discriminate].
      destruct (nj =? nj') eqn:Hj; [|discriminate].
      apply Nat.eqb_eq in Hi, Hj. subst ni' nj'.
      exists [ni; nj], nt, nk, ns. repeat split.
    + unfold Conv3DSingle.call, einsum_tijkl_ijks_tsl in Hcall.
      destruct (shape inputs) as [|nt [|ni [|nj [|nk [|nl [|? ?]]]]]];
        try discriminate;
        destruct (shape (Conv3DSingle.ws c)) as [|ni' [|nj' [|nk' [|ns [|? ?]]]]];
        try discriminate.
      destruct (ni =? ni') eqn:Hi; [|discriminate].
      destruct (nj =? nj') eqn:Hj; [|discriminate].
      destruct (nk =? nk') eqn:Hk; [|discriminate].
      apply Nat.eqb_eq in Hi, Hj, Hk. subst ni' nj' nk'.
      exists [ni; nj; nk], nt, nl, ns. repeat split.
  - intros (spatial & nt & nk & ns & Hrank & Hx & Hw).
    eexists. exact (ConvLayer_call_spec c inputs spatial nt nk ns Hrank Hx Hw).
  - intros e. destruct c as [c|c]; cbn.
    + unfold Conv2DSingle.call, einsum_tijk_ijs_tsk.
      destruct (shape inputs) as [|nt [|ni [|nj [|nk [|? ?]]]]];
        try (intros [= <-]; reflexivity);
        destruct (shape (Conv2DSingle.ws c)) as [|ni' [|nj' [|ns [|? ?]]]];
        try (intros [= <-]; reflexivity).
      destruct ((ni =? ni') && (nj =? nj')); intros [= <-]; reflexivity.
    + unfold Conv3DSingle.call, einsum_tijkl_ijks_tsl.
      destruct (shape inputs) as [|nt [|ni [|nj [|nk [|nl [|? ?]]]]]];
        try (intros [= <-]; reflexivity);
        destruct (shape (Conv3DSingle.ws c)) as [|ni' [|nj' [|nk' [|ns [|? ?]]]]];
        try (intros [= <-]; reflexivity).
      destruct ((ni =? ni') && (nj =? nj') && (nk =? nk')); intros [= <-]; reflexivity.
Qed.

(** ** The pipeline without embedding *)

Section DirectFacts.
Context {F : Type} `{Framework F}.

Import CoarseGrainer.

(** The forward map of the three stages, in terms of the linear stage. *)
Lemma direct_call_unfold (self : t F) (cg : ConvLayer F) (name : string)
    (f : list nat -> list F -> list F) (V : Tensor F) :
  _Λ self = Some [LConv cg; LActivation (named name); LFlatten] ->
  activations_get name = Some f ->
  call self V =
  match ConvLayer_run cg V with
  | Ok conv => Flatten_call (mkTensor (shape conv) (f (shape conv) (data conv)))
  | Raise e => Raise e
  end.
Proof.
  intros HΛ Hact. unfold call. rewrite HΛ.
  cbn [getattr bind Sequential_call Layer_call].
  destruct (ConvLayer_run cg V) as [conv|e]; cbn [bind]; [|reflexivity].
  unfold Activation_call. rewrite Hact. cbn [bind].
  destruct (Flatten_call _); reflexivity.
Qed.

Lemma nth_map_in_range (f : F -> F) (l : list F) (i : nat) (d : F) :
  i < length l -> nth i (map f l) d = f (nth i l d).
Proof.
  intros Hi. rewrite (nth_indep _ d (f d)) by (rewrite length_map; exact Hi).
  apply map_nth.
Qed.

Lemma ConvLayer_run_float32 (cg : ConvLayer F) (V : Tensor F) :
  ConvLayer_dtype cg = float32 -> ConvLayer_run cg V = ConvLayer_call cg V.
Proof. intros Hdt. unfold ConvLayer_run. rewrite Hdt. reflexivity. Qed.

End DirectFacts.

(** X4. Without embedding, with weights that are drawn or given as a
    [float32] array of the configured shape, and with a [conv_activation]
    that acts entry by entry, as [tanh] does: on a batch of shape
    [(batch,) + ll + (nk,)], the entry of [call(V)] at sample [t] and column
    [s * nk + k] is the activation of the contraction of block [t] with the
    weights of hidden channel [s] at position [k] of the trailing axis, and
    the result is a well-formed tensor. *)
Theorem direct_call_entries :
  forall (F : Type) (fw : Framework F) (a : CoarseGrainer.Args.t F)
         (self : CoarseGrainer.t F) (V : Tensor F) (batch nk : nat)
         (act : list nat -> list F -> list F) (f : F -> F),
    CoarseGrainer.Args.h_embed a = false ->
    CoarseGrainer.__init__ a = Ok self ->
    init_rule_fits a ->
    shape V = batch :: CoarseGrainer.Args.ll a ++ [nk] ->
    activations_get (CoarseGrainer.Args.conv_activation a) = Some act ->
    (forall sh d, act sh d = map f d) ->
    exists cg out,
      CoarseGrainer.coarse_grainer self = Some cg /\
      CoarseGrainer.call self V = Ok out /\
      well_formed out = true /\
      forall t s k, t < batch -> s < CoarseGrainer.Args.num_hiddens a -> k < nk ->
        item out [t; s * nk + k] =
        f (sum_over (CoarseGrainer.Args.ll a) (fun idx =>
             fmul (item V (t :: idx ++ [k])) (item (ConvLayer_ws cg) (idx ++ [s])))).
Proof.
  intros F fw a self V batch nk act f He Hinit Hfits HV Hact Hpoint.
  destruct (init_direct_pipeline a self He Hinit) as (cg & act' & Hcg & Hact' & HΛ).
  rewrite Hact in Hact'. injection Hact' as <-.
  destruct (init_ws_shape a self cg Hinit Hfits Hcg) as (Hrank & Hws & Hdt).
  exists cg. eexists. split; [exact Hcg|].
  split.
  { rewrite (direct_call_unfold self cg _ act V HΛ Hact).
    rewrite (ConvLayer_run_float32 cg V Hdt).
    rewrite (ConvLayer_call_spec cg V _ batch nk _ Hrank HV Hws).
    cbn [shape data]. rewrite Hpoint. reflexivity. }
  set (nh := CoarseGrainer.Args.num_hiddens a).
  split.
  - unfold well_formed. cbn. rewrite length_map, rows3_length.
    apply Nat.eqb_eq. lia.
  - intros t s k Ht Hs Hk. unfold item. cbn [shape data ravel numel fold_right].
    assert (Hcol : s * nk + k < nh * nk) by nia.
    assert (Hpos : (0 * batch + t) * (nh * (nk * 1)) + (s * nk + k)
                   = (t * nh + s) * nk + k) by nia.
    rewrite Hpos.
    rewrite nth_map_in_range by (rewrite rows3_length; nia).
    f_equal. exact (rows3_nth batch nh nk _ t s k _ Ht Hs Hk).
Qed.

Lemma direct_call_entries_witness :
  exists self,
    CoarseGrainer.__init__ (default_args (F := Z) [2; 2] 3) = Ok self /\
    exists cg out,
      CoarseGrainer.coarse_grainer self = Some cg /\
      CoarseGrainer.call self (full [5; 2; 2; 1] 1%Z) = Ok out /\
      well_formed out = true /\
      forall t s k, t < 5 -> s < 3 -> k < 1 ->
        item out [t; s * 1 + k] =
        Z.sgn (sum_over [2; 2] (fun idx =>
                 Z.mul (item (full [5; 2; 2; 1] 1%Z) (t :: idx ++ [k]))
                       (item (ConvLayer_ws cg) (idx ++ [s])))).
Proof.
  eexists. split; [reflexivity|].
  exact (direct_call_entries Z Z_framework (default_args [2; 2] 3) _
           (full [5; 2; 2; 1] 1%Z) 5 1 (fun _ => map Z.sgn) Z.sgn
           eq_refl eq_refl I eq_refl eq_refl (fun _ _ => eq_refl)).
Defined.



(** X6. With an explicit [float32] array [w] of shape [S + (ns,)] as
    weights (two spatial axes), neither the sizes in [ll] nor [num_hiddens]
    are checked against it: the object is built, its first [call] maps every
    batch of shape [(batch,) + S + (nk,)] to shape [(batch, ns * nk)], and
    when [S] differs from [ll] it refuses every batch of the configured
    shape [(batch,) + ll + (nk,)] with [InvalidArgumentError]. *)
Theorem explicit_weights_decide_shapes :
  forall (F : Type) (fw : Framework F) (a : CoarseGrainer.Args.t F)
         (self : CoarseGrainer.t F) (w : Tensor F) (spatial : list nat) (ns : nat),
    CoarseGrainer.Args.h_embed a = false ->
    CoarseGrainer.__init__ a = Ok self ->
    length (CoarseGrainer.Args.ll a) = 2 ->
    CoarseGrainer.Args.init_rule a = NdArray float32 w ->
    length spatial = 2 ->
    shape w = spatial ++ [ns] ->
    (forall (V : Tensor F) (batch nk : nat),
       shape V = batch :: spatial ++ [nk] ->
       exists out, CoarseGrainer.call self V = Ok out /\ shape out = [batch; ns * nk]) /\
    (spatial <> CoarseGrainer.Args.ll a ->
     forall (V : Tensor F) (batch nk : nat),
       shape V = batch :: CoarseGrainer.Args.ll a ++ [nk] ->
       CoarseGrainer.call self V = Raise InvalidArgumentError).
Proof.
  intros F fw a self w spatial ns He Hinit Hlen Hrule Hsp Hw.
  destruct (init_direct_pipeline a self He Hinit) as (cg & f & Hcg & Hact & HΛ).
  pose proof (init_coarse_grainer a self Hinit) as Hcg'.
  rewrite Hlen, Hrule, Hcg in Hcg'. cbn in Hcg'. injection Hcg' as ->.
  split.
  - intros V batch nk HV.
    exact (direct_pipeline_call self _ _ f V spatial batch nk ns HΛ Hact
             eq_refl Hsp HV Hw).
  - intros Hdiff V batch nk HV.
    rewrite (direct_call_unfold self _ _ f V HΛ Hact).
    rewrite ConvLayer_run_float32 by reflexivity.
    destruct (linear_stage_accepts_iff_aux
                (Conv2D (Conv2DSingle.__init__ (CoarseGrainer.Args.num_hiddens a)
                           (CoarseGrainer.Args.ll a) (NdArray float32 w))) V)
      as [Hiff Herr].
    destruct (ConvLayer_call _ V) as [conv|e] eqn:Hconv.
    + destruct (proj1 Hiff (ex_intro _ conv eq_refl))
        as (sp & nt & nk' & ns' & _ & Hx & Hw').
      cbn in Hw'. rewrite Hw in Hw'. apply app_inj_tail in Hw' as [Hsp' _].
      rewrite HV in Hx. injection Hx as _ Hx.
      apply app_inj_tail in Hx as [Hll _]. congruence.
    + rewrite (Herr e eq_refl). reflexivity.
Qed.

Lemma explicit_weights_decide_shapes_witness :
  let a := with_init_rule (default_args [2; 2] 3)
             (NdArray float32 (full [3; 3; 7] 1%Z)) in
  exists self,
    CoarseGrainer.__init__ a = Ok self /\
    (exists out,
       CoarseGrainer.call self (full [5; 3; 3; 1] 1%Z) = Ok out /\
       shape out = [5; 7 * 1]) /\
    CoarseGrainer.call self (full [5; 2; 2; 1] 1%Z) = Raise InvalidArgumentError.
Proof.
  eexists. split; [reflexivity|].
  destruct (explicit_weights_decide_shapes Z Z_framework
              (with_init_rule (default_args [2; 2] 3)
                 (NdArray float32 (full [3; 3; 7] 1%Z)))
              _ (full [3; 3; 7] 1%Z) [3; 3] 7
              eq_refl eq_refl eq_refl eq_refl eq_refl eq_refl)
    as [Haccepts Hrefuses].
  split.
  - exact (Haccepts (full [5; 3; 3; 1] 1%Z) 5 1 eq_refl).
  - refine (Hrefuses _ (full [5; 2; 2; 1] 1%Z) 5 1 eq_refl). discriminate.
Defined.



(** X7. Without embedding the forward map does not read the global step:
    whatever steps are set, [call(V)] returns what it returned on the object
    just built, for every [V]. *)
Theorem direct_call_ignores_global_step :
  forall (F : Type) (fw : Framework F) (a : CoarseGrainer.Args.t F)
         (self : CoarseGrainer.t F) (steps : list R) (V : Tensor F),
    CoarseGrainer.Args.h_embed a = false ->
    CoarseGrainer.__init__ a = Ok self ->
    CoarseGrainer.call (run_steps self steps) V = CoarseGrainer.call self V.
Proof.
  intros F fw a self steps V He Hinit.
  destruct (init_direct_pipeline a self He Hinit) as (cg & f & Hcg & Hact & HΛ).
  destruct (run_steps_attributes steps self) as (_ & _ & _ & HΛ' & _).
  rewrite (direct_call_unfold self cg _ f V HΛ Hact).
  apply (direct_call_unfold (run_steps self steps) cg
           (CoarseGrainer.Args.conv_activation a) f V); [|exact Hact].
  rewrite HΛ'. exact HΛ.
Qed.

Lemma direct_call_ignores_global_step_witness :
  exists self,
    CoarseGrainer.__init__ (default_args (F := Z) [2; 2] 3) = Ok self /\
    CoarseGrainer.call (run_steps self [10; 200]%R) (full [5; 2; 2; 1] 1%Z)
    = CoarseGrainer.call self (full [5; 2; 2; 1] 1%Z).
Proof.
  eexists. split; [reflexivity|].
  exact (direct_call_ignores_global_step Z Z_framework (default_args [2; 2] 3) _
           [10; 200]%R (full [5; 2; 2; 1] 1%Z) eq_refl eq_refl).
Defined.

(** ** The pipeline with embedding *)

Section EmbeddingFacts.
Context {F : Type} `{Framework F}.

Import CoarseGrainer.

(** The pipeline that the constructor assembles in embedding mode when one
    of the two flags is set. *)
Lemma init_embed_pipeline (a : Args.t F) (self : t F) :
  Args.h_embed a = true -> __init__ a = Ok self ->
  Args.use_probs a = true \/ Args.use_logits a = true ->
  exists cg,
    coarse_grainer self = Some cg /\
    _Λ self =
      Some (LConv cg ::
            (if Args.use_probs a then [LActivation tf_nn_softmax] else []) ++
            [LFlatten;
             LLambda (Lambda (selected_distribution a) (selected_parametrization a))]).
Proof.
  intros He. revert He. unfold selected_distribution, selected_parametrization.
  init_cases; intros He Hinit Hflag; try discriminate;
    try (destruct Hflag; discriminate);
    injection Hinit as <-; cbn; eauto.
Qed.

(** The forward map in embedding mode, after the step is set to [s]. *)
Lemma embedding_call_value (a : Args.t F) (self : t F) (V : Tensor F)
    (batch nk : nat) (earlier : list R) (s : R) :
  Args.h_embed a = true -> __init__ a = Ok self ->
  Args.use_probs a = true \/ Args.use_logits a = true ->
  init_rule_fits a ->
  shape V = batch :: Args.ll a ++ [nk] ->
  exists cg conv,
    coarse_grainer self = Some cg /\
    ConvLayer_call cg V = Ok conv /\
    shape conv = [batch; Args.num_hiddens a; nk] /\
    call (global_step_setter (run_steps self earlier) s) V =
    Ok (relaxed_sample (selected_distribution a) (selected_parametrization a)
          (np_float32
             (Rmax (Args.min_temperature a)
                (float_mul (Args.init_temperature a)
                   (np_exp (float_mul (- Args.relaxation_rate a) (np_float32 s))))))
          (mkTensor [batch; Args.num_hiddens a * nk]
             (data (if Args.use_probs a then softmax conv else conv)))).
Proof.
  intros He Hinit Hflag Hfits HV.
  destruct (init_embed_pipeline a self He Hinit Hflag) as (cg & Hcg & HΛ).
  destruct (init_ws_shape a self cg Hinit Hfits Hcg) as (Hrank & Hws & Hdt).
  destruct (run_steps_attributes earlier self) as (_ & _ & _ & HΛ' & _).
  pose proof (tau_after_setter a self earlier s He Hinit) as Htau.
  pose proof (ConvLayer_call_spec cg V _ batch nk _ Hrank HV Hws) as Hconv.
  exists cg. eexists. split; [exact Hcg|]. split; [exact Hconv|].
  split; [reflexivity|].
  unfold call. cbn [_Λ global_step_setter set_global_step]. rewrite HΛ', HΛ.
  destruct (Args.use_probs a);
    cbn [app getattr bind Sequential_call Layer_call Activation_call Flatten_call
         shape data softmax distribution parametrization];
    rewrite (ConvLayer_run_float32 cg V Hdt), Hconv;
    cbn [bind Flatten_call shape data softmax numel fold_right];
    rewrite Htau; cbn [bind]; rewrite Nat.mul_1_r; reflexivity.
Qed.

End EmbeddingFacts.

(** X8. In embedding mode with one of the flags set, and weights that are
    drawn or given as a [float32] array of the configured shape, the first
    [call(V)] on a batch of shape [(batch,) + ll + (nk,)] is one draw of the
    selected relaxed distribution ([RelaxedBernoulli] when [Nq] is unset,
    [RelaxedOneHotCategorical] otherwise), parametrized by the flattened
    output of the linear stage (after softmax when [use_probs] is set), at
    the temperature that [tau] computes from the single-precision rounding
    of the step set last. *)
Theorem embedding_call_samples_at_current_temperature :
  forall (F : Type) (fw : Framework F) (a : CoarseGrainer.Args.t F)
         (self : CoarseGrainer.t F) (V : Tensor F) (batch nk : nat)
         (earlier : list R) (s : R),
    CoarseGrainer.Args.h_embed a = true ->
    CoarseGrainer.__init__ a = Ok self ->
    CoarseGrainer.Args.use_probs a = true \/ CoarseGrainer.Args.use_logits a = true ->
    init_rule_fits a ->
    shape V = batch :: CoarseGrainer.Args.ll a ++ [nk] ->
    exists cg conv temperature,
      CoarseGrainer.coarse_grainer self = Some cg /\
      ConvLayer_call cg V = Ok conv /\
      shape conv = [batch; CoarseGrainer.Args.num_hiddens a; nk] /\
      CoarseGrainer.tau
        (CoarseGrainer.global_step_setter (run_steps self earlier) s) = Ok temperature /\
      temperature =
        np_float32
          (Rmax (CoarseGrainer.Args.min_temperature a)
                (float_mul (CoarseGrainer.Args.init_temperature a)
                   (np_exp (float_mul (- CoarseGrainer.Args.relaxation_rate a)
                              (np_float32 s))))) /\
      CoarseGrainer.call
        (CoarseGrainer.global_step_setter (run_steps self earlier) s) V =
      Ok (relaxed_sample (selected_distribution a) (selected_parametrization a)
            temperature
            (mkTensor [batch; CoarseGrainer.Args.num_hiddens a * nk]
               (data (if CoarseGrainer.Args.use_probs a
                      then softmax conv else conv)))).
Proof.
  intros F fw a self V batch nk earlier s He Hinit Hflag Hfits HV.
  destruct (embedding_call_value a self V batch nk earlier s He Hinit Hflag Hfits HV)
    as (cg & conv & Hcg & Hconv & Hshape & Hcall).
  exists cg, conv. eexists.
  split; [exact Hcg|]. split; [exact Hconv|]. split; [exact Hshape|].
  split; [exact (tau_after_setter a self earlier s He Hinit)|].
  split; [reflexivity | exact Hcall].
Qed.

Lemma embedding_call_samples_at_current_temperature_witness :
  let a := embedding_args (F := Z) [2; 2] 3 false true double_0_01 double_0_7 double_0_5 in
  let V := full [5; 2; 2; 1] 1%Z in
  exists self,
    CoarseGrainer.__init__ a = Ok self /\
    exists cg conv temperature,
      CoarseGrainer.coarse_grainer self = Some cg /\
      ConvLayer_call cg V = Ok conv /\
      shape conv = [5; 3; 1] /\
      CoarseGrainer.tau
        (CoarseGrainer.global_step_setter (run_steps self [7]%R) 10) = Ok temperature /\
      temperature =
        np_float32
          (Rmax double_0_7 (double_0_5 * exp (- double_0_01 * np_float32 10))) /\
      CoarseGrainer.call (CoarseGrainer.global_step_setter (run_steps self [7]%R) 10) V =
      Ok (relaxed_sample RelaxedBernoulli logits temperature
            (mkTensor [5; 3 * 1] (data conv))).
Proof.
  eexists. split; [reflexivity|].
  exact (embedding_call_samples_at_current_temperature Z Z_framework
           (embedding_args [2; 2] 3 false true double_0_01 double_0_7 double_0_5) _
           (full [5; 2; 2; 1] 1%Z) 5 1 [7]%R 10
           eq_refl eq_refl (or_intror eq_refl) I eq_refl).
Defined.

Section SoftmaxFacts.
Context {F : Type} `{Framework F}.

(** Softmax along a last axis of size one: every entry is [e^x / (e^x + 0)]. *)
Lemma softmax_trailing_axis_one (nt ns : nat) (buf : list F) (one : F) :
  (forall x, fadd x fzero = x) ->
  (forall x, fdiv (fexp x) (fexp x) = one) ->
  data (softmax (mkTensor [nt; ns; 1] buf)) = repeat one (length buf).
Proof.
  intros Hadd Hdiv. unfold softmax. cbn [shape data last].
  transitivity (map (fun _ : nat => one) (seq 0 (length buf))).
  - apply map_ext. intros p.
    unfold sum_range. cbn [seq fold_right].
    rewrite Nat.div_1_r, Nat.mul_1_r, Nat.add_0_r, Hadd. apply Hdiv.
  - rewrite map_const, length_seq. reflexivity.
Qed.

End SoftmaxFacts.

(** X9. With [use_probs] set, the softmax runs along the trailing axis of
    the linear stage's output, not across the hidden channels.  On the first
    call, on a batch whose trailing axis has size one, with weights that are
    drawn or given as a [float32] array of the configured shape and scalars
    with [x + 0 = x] and [e^x / e^x = 1], every probability handed to the
    sampler is one, whatever the batch and the weights hold. *)
Theorem probs_are_one_on_unit_trailing_axis :
  forall (F : Type) (fw : Framework F) (one : F) (a : CoarseGrainer.Args.t F)
         (self : CoarseGrainer.t F) (V : Tensor F) (batch : nat)
         (earlier : list R) (s : R),
    (forall x, fadd x fzero = x) ->
    (forall x, fdiv (fexp x) (fexp x) = one) ->
    CoarseGrainer.Args.h_embed a = true ->
    CoarseGrainer.Args.use_probs a = true ->
    CoarseGrainer.__init__ a = Ok self ->
    init_rule_fits a ->
    shape V = batch :: CoarseGrainer.Args.ll a ++ [1] ->
    exists temperature,
      CoarseGrainer.tau
        (CoarseGrainer.global_step_setter (run_steps self earlier) s) = Ok temperature /\
      CoarseGrainer.call
        (CoarseGrainer.global_step_setter (run_steps self earlier) s) V =
      Ok (relaxed_sample (selected_distribution a) probs temperature
            (full [batch; CoarseGrainer.Args.num_hiddens a] one)).
Proof.
  intros F fw one a self V batch earlier s Hadd Hdiv He Hp Hinit Hfits HV.
  destruct (embedding_call_value a self V batch 1 earlier s He Hinit
              (or_introl Hp) Hfits HV)
    as (cg & conv & Hcg & Hconv & Hshape & Hcall).
  destruct (init_ws_shape a self cg Hinit Hfits Hcg) as (Hrank & Hws & Hdt).
  rewrite (ConvLayer_call_spec cg V _ batch 1 _ Hrank HV Hws) in Hconv.
  injection Hconv as <-.
  eexists. split; [exact (tau_after_setter a self earlier s He Hinit)|].
  rewrite Hcall. unfold selected_parametrization. rewrite Hp.
  rewrite (softmax_trailing_axis_one _ _ _ one Hadd Hdiv), rows3_length.
  unfold full. cbn [numel fold_right]. rewrite !Nat.mul_1_r. reflexivity.
Qed.

Lemma probs_are_one_on_unit_trailing_axis_witness :
  let a := embedding_args (F := R) [2; 2] 3 true false double_0_01 double_0_7 double_0_5 in
  let V := full [5; 2; 2; 1] 3%R in
  exists self,
    CoarseGrainer.__init__ (H := R_framework) a = Ok self /\
    exists temperature,
      CoarseGrainer.tau (H := R_framework)
        (CoarseGrainer.global_step_setter (run_steps self []) 10) = Ok temperature /\
      CoarseGrainer.call (H := R_framework)
        (CoarseGrainer.global_step_setter (run_steps self []) 10) V =
      Ok (relaxed_sample (Framework := R_framework) RelaxedBernoulli probs
            temperature (full [5; 3] 1%R)).
Proof.
  eexists. split; [reflexivity|].
  refine (probs_are_one_on_unit_trailing_axis R R_framework 1%R
            (embedding_args [2; 2] 3 true false double_0_01 double_0_7 double_0_5) _
            (full [5; 2; 2; 1] 3%R) 5 [] 10 _ _ eq_refl eq_refl eq_refl I eq_refl).
  - intros x. cbn. lra.
  - intros x. cbn. pose proof (exp_pos x). field. lra.
Defined.

(** X11. In embedding mode [conv_activation] is not looked at: the
    constructor returns the same result for every name, known to Keras or
    not, and the pipeline it builds holds no activation but the softmax. *)
Theorem embedding_ignores_conv_activation :
  forall (F : Type) (fw : Framework F) (a : CoarseGrainer.Args.t F)
         (name : string),
    CoarseGrainer.Args.h_embed a = true ->
    CoarseGrainer.__init__ (with_conv_activation a name) = CoarseGrainer.__init__ a /\
    forall self layers other,
      CoarseGrainer.__init__ a = Ok self ->
      CoarseGrainer._Λ self = Some layers ->
      ~ In (LActivation (named other)) layers.
Proof.
  intros F fw a name He. split.
  - unfold CoarseGrainer.__init__, with_conv_activation. cbn. rewrite He. reflexivity.
  - intros self layers other. revert He.
    init_cases; intros He Hinit HΛ; try discriminate;
      injection Hinit as <-; cbn in HΛ; try discriminate;
      injection HΛ as <-; cbn; intros Hin;
      repeat (destruct Hin as [Hin | Hin]; try discriminate); exact Hin.
Qed.

Lemma embedding_ignores_conv_activation_witness :
  let a := embedding_args (F := Z) [2; 2] 3 false true (1 / 100) (5 / 100) 2 in
  CoarseGrainer.__init__ (with_conv_activation a "no such activation")
    = CoarseGrainer.__init__ a /\
  forall self layers other,
    CoarseGrainer.__init__ a = Ok self ->
    CoarseGrainer._Λ self = Some layers ->
    ~ In (LActivation (named other)) layers.
Proof.
  exact (embedding_ignores_conv_activation Z Z_framework
           (embedding_args [2; 2] 3 false true (1 / 100) (5 / 100) 2)
           "no such activation" eq_refl).
Defined.

(** X12. The outcome of the constructor, case by case.  It returns an
    object exactly when embedding is on with both flags false, or the block
    shape has two or three axes and either embedding is on or
    [conv_activation] names a known activation.  It raises [AttributeError]
    on [coarse_grainer] exactly when the block shape has another number of
    axes and a pipeline is assembled, and [ValueError] exactly when the block
    shape is supported, embedding is off and the activation is unknown.  It
    raises nothing else. *)
Theorem constructor_outcome :
  forall (F : Type) (fw : Framework F) (a : CoarseGrainer.Args.t F),
    ((exists self, CoarseGrainer.__init__ a = Ok self) <->
     (CoarseGrainer.Args.h_embed a = true /\
      CoarseGrainer.Args.use_probs a = false /\
      CoarseGrainer.Args.use_logits a = false) \/
     (supported_shape a = true /\
      (CoarseGrainer.Args.h_embed a = true \/
       activations_get (CoarseGrainer.Args.conv_activation a) <> None))) /\
    (CoarseGrainer.__init__ a = Raise (AttributeError "coarse_grainer") <->
     supported_shape a = false /\
     (CoarseGrainer.Args.h_embed a = false \/
      CoarseGrainer.Args.use_probs a = true \/
      CoarseGrainer.Args.use_logits a = true)) /\
    (CoarseGrainer.__init__ a = Raise ValueError <->
     CoarseGrainer.Args.h_embed a = false /\
     supported_shape a = true /\
     activations_get (CoarseGrainer.Args.conv_activation a) = None) /\
    (forall e, CoarseGrainer.__init__ a = Raise e ->
       e = AttributeError "coarse_grainer" \/ e = ValueError).
Proof.
  intros F fw a. unfold supported_shape, CoarseGrainer.__init__, Activation.
  destruct (length (CoarseGrainer.Args.ll a) =? 2);
    [| destruct (length (CoarseGrainer.Args.ll a) =? 3) ];
    destruct (CoarseGrainer.Args.h_embed a);
    destruct (CoarseGrainer.Args.Nq a);
    destruct (CoarseGrainer.Args.use_probs a);
    destruct (CoarseGrainer.Args.use_logits a);
    destruct (activations_get (CoarseGrainer.Args.conv_activation a));
    cbn;
    repeat split; intros;
    repeat match goal with
           | H : exists _, _ |- _ => destruct H
           | H : _ /\ _ |- _ => destruct H
           | H : _ \/ _ |- _ => destruct H
           end;
    try discriminate; try congruence;
    try (eexists; reflexivity);
    try (left; repeat split; reflexivity);
    try (right; split; [reflexivity|]; first [left; reflexivity | right; discriminate]);
    try (left; reflexivity); try (right; left; reflexivity);
    try (right; right; reflexivity); try (right; reflexivity);
    try match goal with H : Raise _ = Raise _ |- _ => injection H as <- end;
    auto.
Qed.

(** ** More on the temperature schedule *)

(** X14. With a non-negative [relaxation_rate] and [init_temperature], a
    floating-point exponential and product that keep the order of their
    arguments and are exact at [exp(0) = 1], [x * 0 = 0] and
    [init_temperature * 1], the temperature read at every step [s >= 0] lies
    between the single-precision roundings of [min_temperature] and of the
    larger of [min_temperature] and [init_temperature]. *)
Theorem tau_range_for_nonnegative_steps :
  forall (F : Type) (fw : Framework F) (a : CoarseGrainer.Args.t F)
         (self : CoarseGrainer.t F) (s : R),
    exp_monotone -> mul_monotone ->
    np_exp 0 = 1%R ->
    (forall x, float_mul x 0 = 0%R) ->
    float_mul (CoarseGrainer.Args.init_temperature a) 1
      = CoarseGrainer.Args.init_temperature a ->
    CoarseGrainer.Args.h_embed a = true ->
    CoarseGrainer.__init__ a = Ok self ->
    (0 <= CoarseGrainer.Args.relaxation_rate a)%R ->
    (0 <= CoarseGrainer.Args.init_temperature a)%R ->
    (0 <= s)%R ->
    exists temperature,
      CoarseGrainer.tau (CoarseGrainer.global_step_setter self s) = Ok temperature /\
      (np_float32 (CoarseGrainer.Args.min_temperature a) <= temperature)%R /\
      (temperature <= np_float32 (Rmax (CoarseGrainer.Args.min_temperature a)
                                       (CoarseGrainer.Args.init_temperature a)))%R.
Proof.
  intros F fw a self s Hexp [Hup Hdown] Hexp0 Hmul0 Hmul1 He Hinit Hk Hi Hs.
  eexists. split; [exact (tau_after_setter a self [] s He Hinit)|].
  split; [apply np_float32_le, Rmax_l|].
  apply np_float32_le, Rle_max_compat_l.
  pose proof (np_float32_le 0 s Hs) as Hs32. rewrite np_float32_0 in Hs32.
  rewrite <- Hmul1 at 2. apply Hup; [exact Hi|].
  rewrite <- Hexp0. apply Hexp.
  rewrite <- (Hmul0 (- CoarseGrainer.Args.relaxation_rate a)%R).
  apply Hdown; [lra | exact Hs32].
Qed.

Lemma tau_range_for_nonnegative_steps_witness :
  exists self,
    CoarseGrainer.__init__
      (embedding_args (F := Z) [2; 2] 3 false true double_0_01 double_0_7 double_0_5)
      = Ok self /\
    exists temperature,
      CoarseGrainer.tau (CoarseGrainer.global_step_setter self 10) = Ok temperature /\
      (np_float32 double_0_7 <= temperature)%R /\
      (temperature <= np_float32 (Rmax double_0_7 double_0_5))%R.
Proof.
  eexists. split; [reflexivity|].
  refine (tau_range_for_nonnegative_steps Z Z_framework
            (embedding_args [2; 2] 3 false true double_0_01 double_0_7 double_0_5) _ 10
            exact_exp_monotone exact_mul_monotone _ _ _ eq_refl eq_refl _ _ _);
    cbn; unfold double_0_01, double_0_5; try (intros; lra); try lra.
  apply exp_0.
Defined.
